(** * Chart digitiser (script.js): calibration, value extraction and crop

    A shallow embedding of the page script: its [let] variables and the DOM
    properties it reads become one explicit state record, every event handler
    becomes a function on that state, and JavaScript numbers are IEEE 754
    binary64 values, i.e. Rocq's primitive [float]. *)

From Stdlib Require Import ZArith List String Bool Lia Floats.
Import ListNotations.

Set Warnings "-inexact-float".

(** ** JavaScript numbers *)

Module Num.

(** Numbers that are known to be integral (results of [Math.round], canvas
    dimensions, pixel counts).  They are kept as mathematical integers next
    to the two infinities and NaN: every integer met below is either a value
    of [Math.round] (an integral double) or is bounded by a canvas dimension
    (an [unsigned long]), so double arithmetic on them is exact.  The sign of
    a zero is dropped; nothing in the script reads it. *)
Inductive jsint := JNaN | JInf (neg : bool) | JInt (z : Z).

(** [floor (m * 2^e + 1/2)] for a dyadic number [m * 2^e]. *)
Definition round_half_up (m e : Z) : Z :=
  if (0 <=? e)%Z then (m * 2 ^ e)%Z
  else ((2 * m + 2 ^ (- e)) / 2 ^ (1 - e))%Z.

(** [Math.round]: the closest integer, ties towards +infinity. *)
Definition Math_round (v : float) : jsint :=
  match Prim2SF v with
  | S754_nan => JNaN
  | S754_infinity s => JInf s
  | S754_zero _ => JInt 0
  | S754_finite s m e => JInt (round_half_up (cond_Zopp s (Zpos m)) e)
  end.

(** [a <= b] on integral numbers; false as soon as one side is NaN. *)
Definition jle (a b : jsint) : bool :=
  match a, b with
  | JNaN, _ | _, JNaN => false
  | JInf true, _ => true
  | _, JInf false => true
  | JInf false, _ => false
  | _, JInf true => false
  | JInt p, JInt q => (p <=? q)%Z
  end.

(** [Math.min] and [Math.max] of two arguments: NaN is contagious. *)
Definition Math_min (a b : jsint) : jsint :=
  match a, b with
  | JNaN, _ | _, JNaN => JNaN
  | _, _ => if jle a b then a else b
  end.

Definition Math_max (a b : jsint) : jsint :=
  match a, b with
  | JNaN, _ | _, JNaN => JNaN
  | _, _ => if jle a b then b else a
  end.

(** [a - b] on integral numbers. *)
Definition jsub (a b : jsint) : jsint :=
  match a, b with
  | JNaN, _ | _, JNaN => JNaN
  | JInt p, JInt q => JInt (p - q)
  | JInf s, JInt _ => JInf s
  | JInt _, JInf s => JInf (negb s)
  | JInf s, JInf t => if Bool.eqb s t then JNaN else JInf s
  end.

(** The double nearest to an integer (exact below 2^53). *)
Definition of_Z (z : Z) : float :=
  SF2Prim (binary_normalize prec emax z 0 false).

Definition to_float (j : jsint) : float :=
  match j with
  | JNaN => nan
  | JInf s => if s then neg_infinity else infinity
  | JInt z => of_Z z
  end.

(** Assigning a number to [canvas.width]: the attribute is an
    [unsigned long]; what is not a non-negative integer ends up as 0. *)
Definition to_ulong (j : jsint) : Z :=
  match j with
  | JInt z => if (0 <=? z)%Z then z else 0%Z
  | _ => 0%Z
  end.

(** [Math.min] and [Math.max] on arbitrary doubles (used on CSS lengths). *)
Definition fmin (a b : float) : float :=
  if is_nan a || is_nan b then nan
  else if (a <? b)%float then a
  else if (b <? a)%float then b
  else if get_sign a then a else b.

Definition fmax (a b : float) : float :=
  if is_nan a || is_nan b then nan
  else if (a <? b)%float then b
  else if (b <? a)%float then a
  else if get_sign a then b else a.

(** [a || b] on numbers: the first operand unless it is 0. *)
Definition js_or (a b : Z) : Z := if (a =? 0)%Z then b else a.

(** Indexing an array literal with a number: [undefined] out of range. *)
Definition lookup {A : Type} (l : list A) (k : Z) : option A :=
  if (k <? 0)%Z then None else nth_error l (Z.to_nat k).

(** [Array.prototype.indexOf] on strings: first position, or -1. *)
Fixpoint indexOf (l : list string) (v : string) : Z :=
  match l with
  | [] => (-1)%Z
  | s :: l' =>
      if String.eqb s v then 0%Z
      else let k := indexOf l' v in if (k <? 0)%Z then (-1)%Z else (k + 1)%Z
  end.

End Num.
Import Num.

(** ** Data model *)

(** A point is the two-element array [[cx, cy]] pushed by the click handler. *)
Definition Point : Type := float * float.

(** Crop boxes [{x, y, w, h}], in canvas pixels. *)
Module Box.
Record t (A : Type) := mk { x : A; y : A; w : A; h : A }.
Arguments mk {A}.
Arguments x {A}.
Arguments y {A}.
Arguments w {A}.
Arguments h {A}.
Definition map {A B : Type} (f : A -> B) (b : t A) : t B :=
  mk (f (x b)) (f (y b)) (f (w b)) (f (h b)).
End Box.

(** Images.  [Decoded] is an uploaded file once [decode()] has resolved;
    [Region o sx sy sw sh] is the PNG read back from the offscreen canvas on
    which [drawImage(o, sx, sy, sw, sh, 0, 0, sw, sh)] was drawn: its own
    size is that of the offscreen canvas. *)
Inductive Image :=
| Decoded (src : string) (nw nh : Z)
| Region (o : Image) (sx sy sw sh : jsint).

Definition naturalWidth (i : Image) : Z :=
  match i with Decoded _ nw _ => nw | Region _ _ _ sw _ => to_ulong sw end.

Definition naturalHeight (i : Image) : Z :=
  match i with Decoded _ _ nh => nh | Region _ _ _ _ sh => to_ulong sh end.

(** The script never sets [width]/[height] on an image element, so they
    report the intrinsic size. *)
Definition width (i : Image) : Z := naturalWidth i.
Definition height (i : Image) : Z := naturalHeight i.

(** The closure stored in [affine]: the four constants it captures. *)
Record Affine := {
  c_vmin : float;
  c_yb : float;
  c_pixelRange : float;
  c_dataRange : float
}.

(** Calling the closure: [(x,y) => vmin + ((yb - y) / pixelRange) * dataRange]. *)
Definition call (a : Affine) (x y : float) : float :=
  (c_vmin a + ((c_yb a - y) / c_pixelRange a) * c_dataRange a)%float.

(** One line of the results table, before [toFixed(2)] formats the numbers.
    [monthName] is [None] when the array lookup gives [undefined]. *)
Record Row := {
  monthName : option string;
  axisVal : float;
  finalVal : float
}.

(** [cropStart = { cssX, cssY, cx, cy }] and [dragOffset = { cssDx, cssDy }]. *)
Record CropStart := { cs_cssX : float; cs_cssY : float; cs_cx : float; cs_cy : float }.
Record DragOffset := { cssDx : float; cssDy : float }.

(** What [newImage.onload] of an applied crop closes over. *)
Record Pending := { newImage : Image; p_sw : jsint; p_sh : jsint }.

(** *** The state, grouped *)

(** [origImg], [origW], [origH], [img]. *)
Record Picture := {
  origImg : option Image;
  origW : Z;
  origH : Z;
  img : option Image
}.

(** [calib], [monthPts], [affine], [mode], [startIdx]; [None] stands for
    [null] (affine) and for [undefined] (mode, startIdx before calibration). *)
Record Marks := {
  calib : list Point;
  monthPts : list Point;
  affine : option Affine;
  mode : option string;
  startIdx : option Z
}.

(** [cropStart], [isCropping], [isDragging], [dragOffset], [cropBox]. *)
Record CropVars := {
  cropStart : option CropStart;
  isCropping : bool;
  isDragging : bool;
  dragOffset : option DragOffset;
  cropBox : Box.t float
}.

(** [canvas.width] and [canvas.height] (the raster size). *)
Record Canvas := { canvas_width : Z; canvas_height : Z }.

(** The four form controls.  For the two numeric fields the state holds what
    [parseFloat] makes of the text: NaN when it does not start with a number. *)
Record Inputs := {
  yminEl_value : float;
  ymaxEl_value : float;
  modeEl_value : string;
  startEl_value : string
}.

(** [cropRect.style]: [display], and the four lengths as the number that
    [parseFloat(... || '0')] reads back from them. *)
Record RectStyle := {
  style_display : string;
  style_left : float;
  style_top : float;
  style_width : float;
  style_height : float
}.

(** [resultsTable.innerHTML] ([None]: empty; [Some rows]: the header line
    followed by [rows]) and [annualLabel.textContent] ([None]: empty;
    [Some t]: "Annual usage: t kWh"). *)
Record Report := {
  resultsTable : option (list Row);
  annualLabel : option float
}.

Record State := {
  pic : Picture;
  marks : Marks;
  crop : CropVars;
  canvas : Canvas;
  inputs : Inputs;
  cropRect : RectStyle;
  report : Report;
  (** crops applied whose [newImage.onload] has not fired yet *)
  loading : list Pending
}.

(** Replacing one group of the state. *)
Definition set_pic (v : Picture) (s : State) : State :=
  {| pic := v; marks := marks s; crop := crop s; canvas := canvas s;
     inputs := inputs s; cropRect := cropRect s; report := report s;
     loading := loading s |}.

Definition set_marks (v : Marks) (s : State) : State :=
  {| pic := pic s; marks := v; crop := crop s; canvas := canvas s;
     inputs := inputs s; cropRect := cropRect s; report := report s;
     loading := loading s |}.

Definition set_crop (v : CropVars) (s : State) : State :=
  {| pic := pic s; marks := marks s; crop := v; canvas := canvas s;
     inputs := inputs s; cropRect := cropRect s; report := report s;
     loading := loading s |}.

Definition set_canvas (v : Canvas) (s : State) : State :=
  {| pic := pic s; marks := marks s; crop := crop s; canvas := v;
     inputs := inputs s; cropRect := cropRect s; report := report s;
     loading := loading s |}.

Definition set_inputs (v : Inputs) (s : State) : State :=
  {| pic := pic s; marks := marks s; crop := crop s; canvas := canvas s;
     inputs := v; cropRect := cropRect s; report := report s;
     loading := loading s |}.

Definition set_cropRect (v : RectStyle) (s : State) : State :=
  {| pic := pic s; marks := marks s; crop := crop s; canvas := canvas s;
     inputs := inputs s; cropRect := v; report := report s;
     loading := loading s |}.

Definition set_report (v : Report) (s : State) : State :=
  {| pic := pic s; marks := marks s; crop := crop s; canvas := canvas s;
     inputs := inputs s; cropRect := cropRect s; report := v;
     loading := loading s |}.

Definition set_loading (v : list Pending) (s : State) : State :=
  {| pic := pic s; marks := marks s; crop := crop s; canvas := canvas s;
     inputs := inputs s; cropRect := cropRect s; report := report s;
     loading := v |}.

(** [calib = []; monthPts = []; affine = null]. *)
Definition clear_marks (m : Marks) : Marks :=
  {| calib := []; monthPts := []; affine := None;
     mode := mode m; startIdx := startIdx m |}.

(** [resultsTable.innerHTML = ''; annualLabel.textContent = '']. *)
Definition no_report : Report :=
  {| resultsTable := None; annualLabel := None |}.

(** [cropRect.style.display = v]. *)
Definition show (v : string) (r : RectStyle) : RectStyle :=
  {| style_display := v; style_left := style_left r; style_top := style_top r;
     style_width := style_width r; style_height := style_height r |}.

(** What a handler does besides changing the state.  Repainting the canvas
    and the captions of buttons and counters are presentation only and are
    not recorded. *)
Inductive Effect :=
| alert (msg : string)
| drawPoint (x y : float) (color : string)
| run_computeResults.

(** ** Helpers - coordinates *)

(** [canvas.getBoundingClientRect()], as the layout gives it at the event. *)
Record DOMRect := {
  rect_left : float;
  rect_top : float;
  rect_width : float;
  rect_height : float
}.

(** A mouse event together with the layout it happens in. *)
Record Pointer := { clientX : float; clientY : float; rect : DOMRect }.

Record CanvasPoint := {
  cx : float; cy : float;
  cssX : float; cssY : float;
  scaleX : float; scaleY : float
}.

Definition getCanvasPointFromClient (c : Canvas) (e : Pointer) : CanvasPoint :=
  let cssX := (clientX e - rect_left (rect e))%float in
  let cssY := (clientY e - rect_top (rect e))%float in
  let scaleX := (of_Z (canvas_width c) / rect_width (rect e))%float in
  let scaleY := (of_Z (canvas_height c) / rect_height (rect e))%float in
  {| cx := (cssX * scaleX)%float; cy := (cssY * scaleY)%float;
     cssX := cssX; cssY := cssY; scaleX := scaleX; scaleY := scaleY |}.

Definition clampCanvasBox (c : Canvas) (box : Box.t float) : Box.t jsint :=
  let x := Math_max (JInt 0) (Math_min (JInt (canvas_width c)) (Math_round (Box.x box))) in
  let y := Math_max (JInt 0) (Math_min (JInt (canvas_height c)) (Math_round (Box.y box))) in
  let w := Math_max (JInt 0) (Math_min (jsub (JInt (canvas_width c)) x) (Math_round (Box.w box))) in
  let h := Math_max (JInt 0) (Math_min (jsub (JInt (canvas_height c)) y) (Math_round (Box.h box))) in
  Box.mk x y w h.

(** ** Compute results *)

Definition daysInMonth : list float :=
  [31; 28; 31; 30; 31; 30; 31; 31; 30; 31; 30; 31]%float.

Definition monthNames : list string :=
  ["Jan"; "Feb"; "Mar"; "Apr"; "May"; "Jun";
   "Jul"; "Aug"; "Sep"; "Oct"; "Nov"; "Dec"]%string.

(** [mode === 'Daily average'] *)
Definition is_daily (md : option string) : bool :=
  match md with Some m => String.eqb m "Daily average" | None => false end.

(** [(startIdx + i) % 12]: NaN, hence no index, while [startIdx] is
    undefined; [%] truncates towards zero. *)
Definition month_index (st : option Z) (i : Z) : option Z :=
  option_map (fun k => Z.rem (k + i) 12) st.

Definition at_index {A : Type} (l : list A) (k : option Z) : option A :=
  match k with Some k => lookup l k | None => None end.

(** The body of the [for] loop on the accumulators [(total, rows)]; [None]
    when [monthPts[i]] is undefined and the destructuring throws. *)
Definition computeResults_body (a : Affine) (pts : list Point)
    (md : option string) (st : option Z) (i : Z) (acc : float * list Row)
    : option (float * list Row) :=
  match lookup pts i with
  | None => None
  | Some (x, y) =>
      let axisVal := call a x y in
      let finalVal :=
        if is_daily md then
          match at_index daysInMonth (month_index st i) with
          | Some days => (axisVal * days)%float
          | None => nan
          end
        else axisVal in
      let monthName := at_index monthNames (month_index st i) in
      Some ((fst acc + finalVal)%float,
            snd acc ++ [{| monthName := monthName; axisVal := axisVal;
                           finalVal := finalVal |}])
  end.

(** [for (let i = i0; ...; i++)] run [n] times; the flag is false when the
    body threw. *)
Fixpoint for_loop {A : Type} (n : nat) (i : Z) (body : Z -> A -> option A)
    (acc : A) : A * bool :=
  match n with
  | O => (acc, true)
  | S n' =>
      match body i acc with
      | Some acc' => for_loop n' (i + 1) body acc'
      | None => (acc, false)
      end
  end.

Definition computeResults (s : State) : State :=
  match affine (marks s) with
  | None => s
  | Some a =>
      if (List.length (monthPts (marks s)) <? 12)%nat then s
      else
        let '(total, rows, finished) :=
          for_loop 12 0
            (computeResults_body a (monthPts (marks s)) (mode (marks s))
               (startIdx (marks s)))
            (0%float, []) in
        set_report
          {| resultsTable := Some rows;
             annualLabel := if finished then Some total
                            else annualLabel (report s) |} s
  end.

(** ** Upload, reset, undo *)

(** [reader.onload], from the point where [loaded.decode()] has resolved. *)
Definition reader_onload (loaded : Image) (s : State) : State :=
  {| pic := {| origImg := Some loaded;
               origW := js_or (naturalWidth loaded) (width loaded);
               origH := js_or (naturalHeight loaded) (height loaded);
               img := Some loaded |};
     marks := clear_marks (marks s);
     crop := crop s;
     canvas := canvas s;
     inputs := inputs s;
     cropRect := show "none" (cropRect s);
     report := no_report;
     loading := loading s |}.

Definition resetBtn_onclick (s : State) : State :=
  {| pic := pic s;
     marks := clear_marks (marks s);
     crop := {| cropStart := None; isCropping := false; isDragging := false;
                dragOffset := None; cropBox := Box.mk 0 0 0 0 |}%float;
     canvas := canvas s;
     inputs := inputs s;
     cropRect := show "none" (cropRect s);
     report := no_report;
     loading := loading s |}.

Definition undoBtn_onclick (s : State) : State :=
  if (0 <? List.length (monthPts (marks s)))%nat then
    set_marks {| calib := calib (marks s);
                 monthPts := removelast (monthPts (marks s));
                 affine := affine (marks s);
                 mode := mode (marks s);
                 startIdx := startIdx (marks s) |} s
  else s.

(** ** Canvas click -> calibration / red points *)

Definition is_some {A : Type} (o : option A) : bool :=
  match o with Some _ => true | None => false end.

Definition canvas_click (e : Pointer) (s : State) : State * list Effect :=
  if isCropping (crop s)
     && (is_some (cropStart (crop s))
         || String.eqb (style_display (cropRect s)) "block")
  then (s, [])
  else
    let p := getCanvasPointFromClient (canvas s) e in
    if (List.length (calib (marks s)) <? 2)%nat then
      (set_marks {| calib := calib (marks s) ++ [(cx p, cy p)];
                    monthPts := monthPts (marks s);
                    affine := affine (marks s);
                    mode := mode (marks s);
                    startIdx := startIdx (marks s) |} s,
       [drawPoint (cx p) (cy p) "blue"])
    else if is_some (affine (marks s))
            && (List.length (monthPts (marks s)) <? 12)%nat then
      let s1 :=
        set_marks {| calib := calib (marks s);
                     monthPts := monthPts (marks s) ++ [(cx p, cy p)];
                     affine := affine (marks s);
                     mode := mode (marks s);
                     startIdx := startIdx (marks s) |} s in
      if (List.length (monthPts (marks s1)) =? 12)%nat then
        (computeResults s1, [drawPoint (cx p) (cy p) "red"; run_computeResults])
      else (s1, [drawPoint (cx p) (cy p) "red"])
    else (s, []).

(** ** Calibration set *)

Definition setCalibBtn_onclick (s : State) : State * list Effect :=
  match calib (marks s) with
  | (xb, yb) :: (xt, yt) :: _ =>
      let vmin := yminEl_value (inputs s) in
      let vmax := ymaxEl_value (inputs s) in
      if is_nan vmin || is_nan vmax then
        (s, [alert "Enter numeric Y-min and Y-max"])
      else
        let pixelRange := (yb - yt)%float in
        if (abs pixelRange <? 1e-6)%float then
          (s, [alert "Calibration points too close vertically."])
        else
          let dataRange := (vmax - vmin)%float in
          (set_marks
             {| calib := calib (marks s);
                monthPts := monthPts (marks s);
                affine := Some {| c_vmin := vmin; c_yb := yb;
                                  c_pixelRange := pixelRange;
                                  c_dataRange := dataRange |};
                mode := Some (modeEl_value (inputs s));
                startIdx := Some (indexOf monthNames (startEl_value (inputs s))) |}
             s, [])
  | _ =>
      (s, [alert "Select two calibration points (bottom then top) first."])
  end.

(** The user typing into a field or picking an option: no handler of the
    script is attached to these, only the control's value changes. *)
Definition input_ymin (v : float) (s : State) : State :=
  set_inputs {| yminEl_value := v; ymaxEl_value := ymaxEl_value (inputs s);
                modeEl_value := modeEl_value (inputs s);
                startEl_value := startEl_value (inputs s) |} s.

Definition input_ymax (v : float) (s : State) : State :=
  set_inputs {| yminEl_value := yminEl_value (inputs s); ymaxEl_value := v;
                modeEl_value := modeEl_value (inputs s);
                startEl_value := startEl_value (inputs s) |} s.

Definition select_mode (v : string) (s : State) : State :=
  set_inputs {| yminEl_value := yminEl_value (inputs s);
                ymaxEl_value := ymaxEl_value (inputs s);
                modeEl_value := v;
                startEl_value := startEl_value (inputs s) |} s.

Definition select_start (v : string) (s : State) : State :=
  set_inputs {| yminEl_value := yminEl_value (inputs s);
                ymaxEl_value := ymaxEl_value (inputs s);
                modeEl_value := modeEl_value (inputs s);
                startEl_value := v |} s.

(** ** Crop toggle and crop interactions *)

Definition cropToggle_onclick (s : State) : State :=
  let on := negb (isCropping (crop s)) in
  set_cropRect (show (if on then "block" else "none") (cropRect s))
    (set_crop {| cropStart := None; isCropping := on; isDragging := false;
                 dragOffset := None; cropBox := Box.mk 0 0 0 0 |}%float s).

Definition canvas_mousedown (e : Pointer) (s : State) : State :=
  if negb (isCropping (crop s)) then s
  else
    let p := getCanvasPointFromClient (canvas s) e in
    let cssLeft := style_left (cropRect s) in
    let cssTop := style_top (cropRect s) in
    let cssW := style_width (cropRect s) in
    let cssH := style_height (cropRect s) in
    let inside :=
      ((0 <? cssW) && (0 <? cssH)
       && (cssLeft <=? cssX p) && (cssX p <=? cssLeft + cssW)
       && (cssTop <=? cssY p) && (cssY p <=? cssTop + cssH))%float in
    if inside then
      set_crop {| cropStart := cropStart (crop s);
                  isCropping := isCropping (crop s);
                  isDragging := true;
                  dragOffset := Some {| cssDx := (cssX p - cssLeft)%float;
                                        cssDy := (cssY p - cssTop)%float |};
                  cropBox := cropBox (crop s) |} s
    else
      set_cropRect {| style_display := "block";
                      style_left := cssX p; style_top := cssY p;
                      style_width := 0%float; style_height := 0%float |}
        (set_crop {| cropStart := Some {| cs_cssX := cssX p; cs_cssY := cssY p;
                                          cs_cx := cx p; cs_cy := cy p |};
                     isCropping := isCropping (crop s);
                     isDragging := isDragging (crop s);
                     dragOffset := dragOffset (crop s);
                     cropBox := Box.mk (cx p) (cy p) 0%float 0%float |} s).

Definition canvas_mousemove (e : Pointer) (s : State) : State :=
  if negb (isCropping (crop s)) then s
  else
    let p := getCanvasPointFromClient (canvas s) e in
    if isDragging (crop s) then
      match dragOffset (crop s) with
      | None => s   (* reading [dragOffset.cssDx] throws *)
      | Some d =>
          let newCssLeft := (cssX p - cssDx d)%float in
          let newCssTop := (cssY p - cssDy d)%float in
          let rectW := style_width (cropRect s) in
          let rectH := style_height (cropRect s) in
          let clampedLeft :=
            fmax 0 (fmin newCssLeft (rect_width (rect e) - rectW)) in
          let clampedTop :=
            fmax 0 (fmin newCssTop (rect_height (rect e) - rectH)) in
          set_cropRect {| style_display := style_display (cropRect s);
                          style_left := clampedLeft; style_top := clampedTop;
                          style_width := rectW; style_height := rectH |}
            (set_crop {| cropStart := cropStart (crop s);
                         isCropping := isCropping (crop s);
                         isDragging := isDragging (crop s);
                         dragOffset := dragOffset (crop s);
                         cropBox :=
                           Box.mk (to_float (Math_round (clampedLeft * scaleX p)))
                                  (to_float (Math_round (clampedTop * scaleY p)))
                                  (Box.w (cropBox (crop s)))
                                  (Box.h (cropBox (crop s))) |} s)
      end
    else
      match cropStart (crop s) with
      | None => s
      | Some c =>
          let leftCss := fmin (cs_cssX c) (cssX p) in
          let topCss := fmin (cs_cssY c) (cssY p) in
          let widthCss := abs (cssX p - cs_cssX c) in
          let heightCss := abs (cssY p - cs_cssY c) in
          set_cropRect {| style_display := style_display (cropRect s);
                          style_left := leftCss; style_top := topCss;
                          style_width := widthCss; style_height := heightCss |}
            (set_crop {| cropStart := cropStart (crop s);
                         isCropping := isCropping (crop s);
                         isDragging := isDragging (crop s);
                         dragOffset := dragOffset (crop s);
                         cropBox :=
                           Box.mk (to_float (Math_round (leftCss * scaleX p)))
                                  (to_float (Math_round (topCss * scaleY p)))
                                  (to_float (Math_round (widthCss * scaleX p)))
                                  (to_float (Math_round (heightCss * scaleY p))) |} s)
      end.

Definition canvas_mouseup (e : Pointer) (s : State) : State :=
  if negb (isCropping (crop s)) then s
  else
    let cb := Box.map to_float (clampCanvasBox (canvas s) (cropBox (crop s))) in
    let kx := (rect_width (rect e) / of_Z (canvas_width (canvas s)))%float in
    let ky := (rect_height (rect e) / of_Z (canvas_height (canvas s)))%float in
    set_cropRect {| style_display := style_display (cropRect s);
                    style_left := (Box.x cb * kx)%float;
                    style_top := (Box.y cb * ky)%float;
                    style_width := (Box.w cb * kx)%float;
                    style_height := (Box.h cb * ky)%float |}
      (set_crop {| cropStart := None;
                   isCropping := isCropping (crop s);
                   isDragging := false;
                   dragOffset := dragOffset (crop s);
                   cropBox := cb |} s).

Definition canvas_mouseleave (s : State) : State :=
  if negb (isCropping (crop s)) then s
  else
    set_crop {| cropStart := None;
                isCropping := isCropping (crop s);
                isDragging := false;
                dragOffset := dragOffset (crop s);
                cropBox := cropBox (crop s) |} s.

(** ** Apply crop *)

(** The crop box mapped to original-image pixels:
    [Math.round(cb.x * (origW / canvas.width))] and its three siblings. *)
Definition to_original (s : State) (cb : Box.t jsint) : Box.t jsint :=
  let kx := (of_Z (origW (pic s)) / of_Z (canvas_width (canvas s)))%float in
  let ky := (of_Z (origH (pic s)) / of_Z (canvas_height (canvas s)))%float in
  Box.mk (Math_round (to_float (Box.x cb) * kx))
         (Math_round (to_float (Box.y cb) * ky))
         (Math_round (to_float (Box.w cb) * kx))
         (Math_round (to_float (Box.h cb) * ky)).

(** The click on "apply": either nothing, or a message, or an image load is
    started whose completion is [newImage_onload] below. *)
Definition applyCropBtn_onclick (s : State) : State * list Effect :=
  match origImg (pic s) with
  | None => (s, [])
  | Some o =>
      if String.eqb (style_display (cropRect s)) "none" then (s, [])
      else
        let cb := clampCanvasBox (canvas s) (cropBox (crop s)) in
        if jle (Box.w cb) (JInt 0) || jle (Box.h cb) (JInt 0) then
          (s, [alert "Select a valid crop area first."])
        else
          let src := to_original s cb in
          if jle (Box.w src) (JInt 0) || jle (Box.h src) (JInt 0) then
            (s, [alert "Crop too small."])
          else
            (set_loading
               (loading s ++
                [{| newImage := Region o (Box.x src) (Box.y src)
                                         (Box.w src) (Box.h src);
                    p_sw := Box.w src; p_sh := Box.h src |}]) s,
             [])
  end.

Definition newImage_onload (p : Pending) (s : State) : State :=
  {| pic := {| origImg := Some (newImage p);
               origW := js_or (naturalWidth (newImage p)) (width (newImage p));
               origH := js_or (naturalHeight (newImage p)) (height (newImage p));
               img := Some (newImage p) |};
     marks := clear_marks (marks s);
     crop := {| cropStart := cropStart (crop s);
                isCropping := false;
                isDragging := isDragging (crop s);
                dragOffset := dragOffset (crop s);
                cropBox := cropBox (crop s) |};
     canvas := {| canvas_width := to_ulong (p_sw p);
                  canvas_height := to_ulong (p_sh p) |};
     inputs := inputs s;
     cropRect := show "none" (cropRect s);
     report := no_report;
     loading := loading s |}.

(** The [n]-th of the loads in flight completes. *)
Definition image_loaded (n : nat) (s : State) : State :=
  match nth_error (loading s) n with
  | None => s
  | Some p =>
      newImage_onload p
        (set_loading (firstn n (loading s) ++ skipn (S n) (loading s)) s)
  end.

(** Applying a crop with nothing happening between the click and the load
    it starts (the new load is queued behind those already in flight). *)
Definition apply_crop (s : State) : State * list Effect :=
  let '(s1, out) := applyCropBtn_onclick s in
  (image_loaded (List.length (loading s)) s1, out).

(** ** The page as a transition system *)

Inductive Event :=
| Upload (loaded : Image)
| Reset
| Undo
| Click (e : Pointer)
| SetCalib
| InputYmin (v : float)
| InputYmax (v : float)
| SelectMode (v : string)
| SelectStart (v : string)
| CropToggle
| MouseDown (e : Pointer)
| MouseMove (e : Pointer)
| MouseUp (e : Pointer)
| MouseLeave
| ApplyCrop
| ImageLoaded (n : nat).

Definition step (ev : Event) (s : State) : State * list Effect :=
  match ev with
  | Upload loaded => (reader_onload loaded s, [])
  | Reset => (resetBtn_onclick s, [])
  | Undo => (undoBtn_onclick s, [])
  | Click e => canvas_click e s
  | SetCalib => setCalibBtn_onclick s
  | InputYmin v => (input_ymin v s, [])
  | InputYmax v => (input_ymax v s, [])
  | SelectMode v => (select_mode v s, [])
  | SelectStart v => (select_start v s, [])
  | CropToggle => (cropToggle_onclick s, [])
  | MouseDown e => (canvas_mousedown e s, [])
  | MouseMove e => (canvas_mousemove e s, [])
  | MouseUp e => (canvas_mouseup e s, [])
  | MouseLeave => (canvas_mouseleave s, [])
  | ApplyCrop => applyCropBtn_onclick s
  | ImageLoaded n => (image_loaded n s, [])
  end.

Definition after (ev : Event) (s : State) : State := fst (step ev s).

Fixpoint run (evs : list Event) (s : State) : State :=
  match evs with
  | [] => s
  | ev :: evs' => run evs' (after ev s)
  end.

(** The state the script's top-level declarations leave; the canvas size,
    the form controls and the crop rectangle's style come from the page. *)
Definition start (c : Canvas) (i : Inputs) (r : RectStyle) : State :=
  {| pic := {| origImg := None; origW := 0; origH := 0; img := None |};
     marks := {| calib := []; monthPts := []; affine := None;
                 mode := None; startIdx := None |};
     crop := {| cropStart := None; isCropping := false; isDragging := false;
                dragOffset := None; cropBox := Box.mk 0 0 0 0 |}%float;
     canvas := c;
     inputs := i;
     cropRect := r;
     report := no_report;
     loading := [] |}.

Inductive reachable : State -> Prop :=
| reach_start c i r : reachable (start c i r)
| reach_step ev s : reachable s -> reachable (after ev s).

(** ** Vocabulary of the statements *)

(** The specification's error kinds, read off the message shown. *)
Definition InvalidInput (out : list Effect) : Prop :=
  out = [alert "Enter numeric Y-min and Y-max"].

Definition InvalidCalibration (out : list Effect) : Prop :=
  out = [alert "Calibration points too close vertically."].

Definition EmptyCrop (out : list Effect) : Prop :=
  out = [alert "Select a valid crop area first."]
  \/ out = [alert "Crop too small."].

(** The bounds as the calibration handler will read them. *)
Definition vmin_of (s : State) : float := yminEl_value (inputs s).
Definition vmax_of (s : State) : float := ymaxEl_value (inputs s).

(** The map the specification gives for [buildAffine]. *)
Definition spec_value (vmin vmax yb yt : float) (x y : float) : float :=
  (vmin + ((yb - y) / (yb - yt)) * (vmax - vmin))%float.

(** Row [i] of the results as the specification words it, for a start index
    in 0..11: the label and the day count are those of month
    [(startIdx + i) mod 12]. *)
Definition spec_row (a : Affine) (md : string) (k : Z) (i : nat) (p : Point)
    : Row :=
  let month := Z.to_nat ((k + Z.of_nat i) mod 12) in
  let v := call a (fst p) (snd p) in
  {| monthName := Some (nth month monthNames ""%string);
     axisVal := v;
     finalVal := if String.eqb md "Daily average"
                 then (v * nth month daysInMonth nan)%float
                 else v |}.

Fixpoint spec_rows (a : Affine) (md : string) (k : Z) (i : nat)
    (pts : list Point) : list Row :=
  match pts with
  | [] => []
  | p :: pts' => spec_row a md k i p :: spec_rows a md k (S i) pts'
  end.

(** The annual total: the final values added up from 0 in row order. *)
Definition sum_finalVal (rows : list Row) : float :=
  fold_left (fun t r => (t + finalVal r)%float) rows 0%float.

(** The bounds of the two point stores. *)
Definition stores_bounded (s : State) : Prop :=
  (List.length (calib (marks s)) <= 2)%nat
  /\ (List.length (monthPts (marks s)) <= 12)%nat.


(** The click is not swallowed by crop mode (the handler's first line). *)
Definition reaches_stores (s : State) : Prop :=
  isCropping (crop s)
  && (is_some (cropStart (crop s))
      || String.eqb (style_display (cropRect s)) "block") = false.

(** The point a click stands for. *)
Definition clicked (s : State) (e : Pointer) : Point :=
  (cx (getCanvasPointFromClient (canvas s) e),
   cy (getCanvasPointFromClient (canvas s) e)).

(** Changes of the mode or start-month selection. *)
Definition is_selection (ev : Event) : bool :=
  match ev with SelectMode _ | SelectStart _ => true | _ => false end.

Definition is_SetCalib (ev : Event) : bool :=
  match ev with SetCalib => true | _ => false end.

(** A box all of whose fields are numbers. *)
Definition numeric (b : Box.t float) : Prop :=
  is_nan (Box.x b) = false /\ is_nan (Box.y b) = false
  /\ is_nan (Box.w b) = false /\ is_nan (Box.h b) = false.

(** *** A sample page

    An 800 x 600 canvas shown at its own size with its corner at the origin
    of the viewport, so that client coordinates are raster coordinates. *)
Definition sample_canvas : Canvas :=
  {| canvas_width := 800; canvas_height := 600 |}.

Definition sample_rect : DOMRect :=
  {| rect_left := 0; rect_top := 0; rect_width := 800; rect_height := 600 |}.

Definition at_xy (x y : float) : Pointer :=
  {| clientX := x; clientY := y; rect := sample_rect |}.

Definition sample_inputs (vmin vmax : float) (md st : string) : Inputs :=
  {| yminEl_value := vmin; ymaxEl_value := vmax;
     modeEl_value := md; startEl_value := st |}.

Definition hidden_rect : RectStyle :=
  {| style_display := "none"; style_left := 0; style_top := 0;
     style_width := 0; style_height := 0 |}.

(** The page on load, with the given bounds typed in. *)
Definition sample_page (vmin vmax : float) : State :=
  start sample_canvas (sample_inputs vmin vmax "Daily average" "Mar")
    hidden_rect.

(** Two calibration clicks at heights [yb] then [yt]. *)
Definition two_clicks (yb yt : float) : list Event :=
  [Click (at_xy 50 yb); Click (at_xy 60 yt)].

(** Rounded value [r] clamped into [[0, hi]]. *)
Definition clamp_to (hi : Z) (r : jsint) : Z :=
  match r with
  | JInt q => Z.max 0 (Z.min hi q)
  | JInf true => 0
  | JInf false => hi
  | JNaN => 0
  end.

(** Twelve month points on the sample page, calibrated with bounds 0 and
    1000 at heights 500 and 100. *)
Definition sample_heights : list float :=
  [300; 320; 340; 360; 380; 400; 420; 440; 460; 480; 200; 100]%float.

Definition month_clicks (ys : list float) : list Event :=
  map (fun y => Click (at_xy 100 y)) ys.

Definition sample_calibrated : State :=
  run (two_clicks 500 100 ++ [SetCalib]) (sample_page 0 1000).

Definition sample_eleven : State :=
  run (month_clicks (firstn 11 sample_heights)) sample_calibrated.

Definition sample_twelve : State :=
  run (month_clicks sample_heights) sample_calibrated.

(** An uploaded chart twice the size of the canvas, crop mode on, and a box
    dragged from (100, 50) to (500, 350). *)
Definition sample_cropping : State :=
  run [Upload (Decoded "chart" 1600 1200); CropToggle;
       MouseDown (at_xy 100 50); MouseMove (at_xy 500 350);
       MouseUp (at_xy 500 350)]
    (sample_page 0 1000).

(** The same with the button released where it was pressed. *)
Definition sample_empty_crop : State :=
  run [Upload (Decoded "chart" 1600 1200); CropToggle;
       MouseDown (at_xy 100 50); MouseUp (at_xy 100 50)]
    (sample_page 0 1000).

(** The twelve month clicks with the mode switched to "Total" before the
    first and the start month to "Jan" before the seventh. *)
Definition sample_reselecting : list Event :=
  SelectMode "Total"
  :: month_clicks (firstn 6 sample_heights)
  ++ SelectStart "Jan" :: month_clicks (skipn 6 sample_heights).

(** ** Vocabulary for the page-wide properties *)

(** Row [i] as the loop body of [computeResults] builds it from point [p],
    whatever the stored mode and start index are. *)
Definition row_at (a : Affine) (md : option string) (st : option Z) (i : nat)
    (p : Point) : Row :=
  let v := call a (fst p) (snd p) in
  {| monthName := at_index monthNames (month_index st (Z.of_nat i));
     axisVal := v;
     finalVal :=
       if is_daily md then
         match at_index daysInMonth (month_index st (Z.of_nat i)) with
         | Some days => (v * days)%float
         | None => nan
         end
       else v |}.

Fixpoint rows_from (a : Affine) (md : option string) (st : option Z) (i : nat)
    (pts : list Point) : list Row :=
  match pts with
  | [] => []
  | p :: pts' => row_at a md st i p :: rows_from a md st (S i) pts'
  end.

(** The map in force was built from the calibration points on display, never
    divides by a pixel range below 1e-6, and comes with a stored mode and a
    stored start index in -1..11. *)
Definition map_from_calibration (s : State) : Prop :=
  forall a, affine (marks s) = Some a ->
    exists xb xt yt md k,
      calib (marks s) = [(xb, c_yb a); (xt, yt)]
      /\ c_pixelRange a = (c_yb a - yt)%float
      /\ (abs (c_pixelRange a) <? 1e-6)%float = false
      /\ is_nan (c_vmin a) = false
      /\ mode (marks s) = Some md
      /\ startIdx (marks s) = Some k /\ (-1 <= k <= 11)%Z.

(** The report is empty, or it is a table of twelve rows under a total that
    is the sum of their final values, shown while a map is present. *)
Definition report_shape (s : State) : Prop :=
  report s = no_report
  \/ exists rows,
       resultsTable (report s) = Some rows
       /\ List.length rows = 12%nat
       /\ annualLabel (report s) = Some (sum_finalVal rows)
       /\ affine (marks s) <> None.

(** Everything the page keeps true from load on. *)
Definition sound (s : State) : Prop :=
  stores_bounded s
  /\ map_from_calibration s
  /\ (monthPts (marks s) <> [] -> affine (marks s) <> None)
  /\ report_shape s
  /\ (List.length (monthPts (marks s)) = 12%nat ->
      resultsTable (report s) <> None)
  /\ (isDragging (crop s) = true -> dragOffset (crop s) <> None).

(** Events of the pointer over the canvas while cropping. *)
Definition is_crop_gesture (ev : Event) : bool :=
  match ev with
  | MouseDown _ | MouseMove _ | MouseUp _ | MouseLeave => true
  | _ => false
  end.

(** A box of integers, as numbers. *)
Definition int_box (x y w h : Z) : Box.t jsint :=
  Box.mk (JInt x) (JInt y) (JInt w) (JInt h).

(** The sample session with "apply" pressed on the dragged box. *)
Definition sample_applying : State := after ApplyCrop sample_cropping.

(** The sample crop session with the button pressed inside the drawn box. *)
Definition sample_dragging : State :=
  after (MouseDown (at_xy 200 100)) sample_cropping.

(** ** Integers as doubles

    The mantissa and the exponent of the double that holds a non-zero
    integer below 2^53 in magnitude: the integer shifted up to 53 binary
    digits, and the shift undone. *)
Definition imant (z : Z) : positive :=
  Z.to_pos (Z.abs z * 2 ^ (53 - Zdigits2 z)).

Definition iexp (z : Z) : Z := (Zdigits2 z - 53)%Z.

(** * Facts about binary64 arithmetic

    Proved from the specification [SpecFloat] that the primitive operations
    are stated to follow ([FloatAxioms]). *)

Module FloatFacts.

Local Open Scope Z_scope.

Lemma SFcompare_swap x y :
  SFcompare y x = option_map CompOpp (SFcompare x y).
Proof.
  destruct x as [s|s| |s m e], y as [t|t| |t n f]; simpl; try reflexivity;
    try (destruct s; reflexivity); try (destruct t; reflexivity);
    try (destruct s, t; reflexivity).
  destruct s, t; simpl; try reflexivity;
    rewrite (Z.compare_antisym e f); destruct (e ?= f); simpl;
    try reflexivity;
    change (PosDef.Pos.compare_cont Eq n m)
      with (Pos.compare_cont (CompOpp Eq) n m);
    rewrite <- Pos.compare_cont_antisym; reflexivity.
Qed.

(** [a <= b] excludes [b < a]. *)
Lemma leb_not_ltb (a b : float) :
  (a <=? b)%float = true -> (b <? a)%float = false.
Proof.
  rewrite leb_spec, ltb_spec. unfold SFleb, SFltb.
  rewrite (SFcompare_swap (Prim2SF a) (Prim2SF b)).
  destruct (SFcompare (Prim2SF a) (Prim2SF b)) as [[ | | ]|]; simpl;
    congruence.
Qed.

Lemma SFcompare_refl x : x <> S754_nan -> SFcompare x x = Some Eq.
Proof.
  destruct x as [s|s| |s m e]; simpl; intros H; try congruence;
    try (destruct s; reflexivity).
  destruct s; rewrite Z.compare_refl;
    change (PosDef.Pos.compare_cont Eq m m) with (Pos.compare m m);
    rewrite Pos.compare_refl; reflexivity.
Qed.

Lemma is_nan_SF (f : float) :
  is_nan f = match Prim2SF f with S754_nan => true | _ => false end.
Proof.
  unfold is_nan. rewrite eqb_spec. unfold SFeqb.
  destruct (Prim2SF f) as [s|s| |s m e] eqn:E.
  - reflexivity.
  - destruct s; reflexivity.
  - reflexivity.
  - rewrite SFcompare_refl by discriminate. reflexivity.
Qed.

Lemma Prim2SF_infinity : Prim2SF infinity = S754_infinity false.
Proof. reflexivity. Qed.

Lemma Prim2SF_one : Prim2SF 1 = S754_finite false 4503599627370496 (-52).
Proof. reflexivity. Qed.

(** A finite double is a zero or a signed mantissa with an exponent. *)
Lemma is_finite_SF (f : float) :
  is_finite f
  = match Prim2SF f with
    | S754_zero _ | S754_finite _ _ _ => true
    | _ => false
    end.
Proof.
  unfold is_finite, is_infinity. rewrite is_nan_SF, eqb_spec, abs_spec.
  rewrite Prim2SF_infinity.
  destruct (Prim2SF f) as [s|s| |s m e]; reflexivity.
Qed.

Lemma is_finite_not_nan (f : float) : is_finite f = true -> is_nan f = false.
Proof.
  unfold is_finite. destruct (is_nan f); simpl; congruence.
Qed.

(** [x < y] holds of no NaN. *)
Lemma ltb_not_nan (a b : float) :
  (a <? b)%float = true -> Prim2SF a <> S754_nan /\ Prim2SF b <> S754_nan.
Proof.
  rewrite ltb_spec. unfold SFltb.
  destruct (Prim2SF a) as [s|s| |s m e], (Prim2SF b) as [t|t| |t n f];
    simpl; try discriminate; split; discriminate.
Qed.

(** *** x / x *)

Lemma div_self_SF s m e :
  SF64div (S754_finite s m e) (S754_finite s m e) = Prim2SF 1.
Proof.
  unfold SF64div, SFdiv, SFdiv_core_binary.
  replace (Zdigits2 (Z.pos m) + e - (Zdigits2 (Z.pos m) + e)) with 0 by lia.
  replace (e - e) with 0 by lia.
  change (Z.min (fexp prec emax 0) 0) with (-53).
  change (0 - -53) with 53.
  cbv iota beta.
  rewrite Z.shiftl_mul_pow2 by lia.
  pose proof (Z.mod_mul (2 ^ 53) (Z.pos m)) as Hm.
  pose proof (Z.div_mul (2 ^ 53) (Z.pos m)) as Hd.
  unfold Z.modulo, Z.div in *.
  rewrite (Z.mul_comm (Z.pos m)).
  destruct (Z.div_eucl (2 ^ 53 * Z.pos m) (Z.pos m)) as [q r].
  rewrite Hd, Hm by lia.
  replace (xorb s s) with false by (destruct s; reflexivity).
  unfold new_location. destruct (Z.even (Z.pos m)); reflexivity.
Qed.

Lemma div_self (p : float) s m e :
  Prim2SF p = S754_finite s m e -> (p / p)%float = 1%float.
Proof.
  intros H. apply Prim2SF_inj. rewrite div_spec, H. apply div_self_SF.
Qed.

(** *** 1 * x *)

Lemma digits_shift52 m :
  Z.pos (digits2_pos (Pos.mul 4503599627370496 m))
  = Z.pos (digits2_pos m) + 52.
Proof.
  cbn [Pos.mul digits2_pos]. repeat rewrite Pos2Z.inj_succ. lia.
Qed.

Lemma shr_fexp_canonical m e :
  fexp prec emax (Z.pos (digits2_pos m) + e) = e ->
  shr_fexp prec emax (Z.pos m) e loc_Exact
  = ({| shr_m := Z.pos m; shr_r := false; shr_s := false |}, e).
Proof.
  intros Hc. unfold shr_fexp, Zdigits2. rewrite Hc, Z.sub_diag. reflexivity.
Qed.

Lemma shr_fexp_shifted m e :
  fexp prec emax (Z.pos (digits2_pos m) + e) = e ->
  shr_fexp prec emax (Z.pos (Pos.mul 4503599627370496 m)) (-52 + e) loc_Exact
  = ({| shr_m := Z.pos m; shr_r := false; shr_s := false |}, e).
Proof.
  intros Hc. unfold shr_fexp, Zdigits2. rewrite digits_shift52.
  replace (Z.pos (digits2_pos m) + 52 + (-52 + e))
    with (Z.pos (digits2_pos m) + e) by lia.
  rewrite Hc.
  replace (e - (-52 + e)) with 52 by lia.
  cbn [shr shr_record_of_loc iter_pos Pos.mul shr_1 orb].
  f_equal. lia.
Qed.

Lemma one_mul_SF s m e :
  bounded prec emax m e = true ->
  SF64mul (Prim2SF 1) (S754_finite s m e) = S754_finite s m e.
Proof.
  intros Hb. unfold bounded, canonical_mantissa in Hb.
  apply andb_prop in Hb. destruct Hb as [Hc He].
  apply Z.eqb_eq in Hc.
  rewrite Prim2SF_one.
  unfold SF64mul, SFmul, binary_round_aux. cbn [xorb].
  rewrite (shr_fexp_shifted m e Hc).
  cbn [shr_m loc_of_shr_record round_nearest_even].
  rewrite (shr_fexp_canonical m e Hc).
  cbn [shr_m]. rewrite He. reflexivity.
Qed.

Lemma one_mul (d : float) : (1 * d)%float = d.
Proof.
  apply Prim2SF_inj. rewrite mul_spec.
  pose proof (Prim2SF_valid d) as V.
  destruct (Prim2SF d) as [s|s| |s m e].
  - reflexivity.
  - reflexivity.
  - reflexivity.
  - apply one_mul_SF. exact V.
Qed.

(** *** x - x, 0 / x, 0 * x, x + 0 *)

Lemma sub_self (v : float) :
  is_finite v = true -> Prim2SF (v - v) = S754_zero false.
Proof.
  rewrite is_finite_SF, sub_spec.
  destruct (Prim2SF v) as [s|s| |s m e]; try discriminate; intros _.
  - destruct s; reflexivity.
  - unfold SF64sub, SFsub. rewrite Z.sub_diag. reflexivity.
Qed.

(** A finite difference has finite operands. *)
Lemma sub_finite_left (a b : float) :
  is_finite (a - b) = true -> is_finite a = true.
Proof.
  rewrite !is_finite_SF, sub_spec.
  destruct (Prim2SF a) as [s|s| |s m e], (Prim2SF b) as [t|t| |t n f];
    try reflexivity; try discriminate; destruct s, t; discriminate.
Qed.

(** What [1e-6 <= |p|] leaves for [p]: an infinity or a non-zero finite
    number. *)
Lemma far_apart_SF (p : float) :
  (1e-6 <=? abs p)%float = true ->
  match Prim2SF p with
  | S754_infinity _ | S754_finite _ _ _ => True
  | _ => False
  end.
Proof.
  rewrite leb_spec, abs_spec.
  change (Prim2SF 1e-6) with (S754_finite false 4722366482869645 (-72)).
  destruct (Prim2SF p) as [s|s| |s m e]; simpl; try discriminate; trivial.
Qed.

(** The value at the bottom reference: [vmin + ((+0) / p) * d] is [vmin]
    as soon as [p] is not 0 and [d] is finite. *)
Lemma bottom_endpoint_SF (V P D : spec_float) :
  V <> S754_nan ->
  match P with S754_infinity _ | S754_finite _ _ _ => True | _ => False end ->
  match D with S754_zero _ | S754_finite _ _ _ => True | _ => False end ->
  SFeqb (SF64add V (SF64mul (SF64div (S754_zero false) P) D)) V = true.
Proof.
  intros HV HP HD.
  destruct P as [s|s| |s m e]; try contradiction;
    destruct D as [t|t| |t n f]; try contradiction;
    unfold SF64div, SF64mul, SF64add; cbn [SFdiv SFmul xorb];
    destruct V as [u|u| |u k g]; try congruence; cbn [SFadd];
    try (unfold SFeqb; rewrite SFcompare_refl by discriminate; reflexivity);
    destruct u, s, t; reflexivity.
Qed.

End FloatFacts.

(** * Integers as doubles

    Integers below 2^53 are doubles: converting one and rounding it gives it
    back, and dividing it by itself gives exactly 1. *)

Module IntegerDoubles.

Local Open Scope Z_scope.

Lemma digits2_size m : digits2_pos m = Pos.size m.
Proof. induction m; cbn; congruence. Qed.

Lemma digits_le_53 m : Z.pos m < 2 ^ 53 -> Z.pos (digits2_pos m) <= 53.
Proof.
  intros H. rewrite digits2_size.
  pose proof (Pos.size_le m) as L.
  apply Pos2Z.pos_le_pos in L. rewrite Pos2Z.inj_pow in L.
  change (Z.pos m~0) with (2 * Z.pos m) in L.
  destruct (Z.le_gt_cases (Z.pos (Pos.size m)) 53) as [?|G]; [assumption|].
  assert (2 ^ 54 <= 2 ^ Z.pos (Pos.size m)) by (apply Z.pow_le_mono_r; lia).
  change (2 ^ 54) with (2 * 2 ^ 53) in *. lia.
Qed.

Lemma iter_xO_value m k : Z.pos (Pos.iter xO m k) = Z.pos m * 2 ^ Z.pos k.
Proof.
  induction k using Pos.peano_ind.
  - cbn. lia.
  - rewrite Pos.iter_succ, Pos2Z.inj_succ, Z.pow_succ_r by lia.
    rewrite Pos2Z.inj_xO, IHk. lia.
Qed.

Lemma iter_xO_digits m k :
  Z.pos (digits2_pos (Pos.iter xO m k)) = Z.pos (digits2_pos m) + Z.pos k.
Proof.
  induction k using Pos.peano_ind.
  - cbn. lia.
  - rewrite Pos.iter_succ. cbn [digits2_pos].
    rewrite !Pos2Z.inj_succ, IHk. lia.
Qed.

(** Rounding a mantissa that is already in canonical position. *)
Lemma round_canonical mz ez :
  fexp prec emax (Z.pos (digits2_pos mz) + ez) = ez -> ez <= 0 ->
  binary_round_aux prec emax false (Z.pos mz) ez loc_Exact
  = S754_finite false mz ez
  /\ bounded prec emax mz ez = true.
Proof.
  intros C L. split.
  - unfold binary_round_aux.
    rewrite (FloatFacts.shr_fexp_canonical _ _ C).
    cbn [shr_m loc_of_shr_record round_nearest_even].
    rewrite (FloatFacts.shr_fexp_canonical _ _ C).
    cbn [shr_m].
    destruct (Z.leb_spec ez (emax - prec)) as [_|G]; [reflexivity|].
    unfold emax, prec in G. lia.
  - unfold bounded, canonical_mantissa. rewrite C, Z.eqb_refl.
    apply Z.leb_le. unfold emax, prec. lia.
Qed.

(** A positive integer [m] below 2^53 is the double [mz * 2^(-k)] with
    [mz = m * 2^k]. *)
Lemma normalize_small m :
  Z.pos m < 2 ^ 53 ->
  exists mz k,
    0 <= k /\ Z.pos mz = Z.pos m * 2 ^ k
    /\ binary_normalize prec emax (Z.pos m) 0 false
       = S754_finite false mz (- k)
    /\ bounded prec emax mz (- k) = true.
Proof.
  intros H. pose proof (digits_le_53 m H) as D.
  unfold binary_normalize, binary_round.
  rewrite Z.add_0_r.
  assert (F : fexp prec emax (Z.pos (digits2_pos m))
              = Z.pos (digits2_pos m) - 53).
  { unfold fexp, SpecFloat.emin, prec, emax. lia. }
  rewrite F. unfold shl_align. rewrite Z.sub_0_r.
  set (d := Z.pos (digits2_pos m)) in *.
  destruct (d - 53) as [|p|p] eqn:E; try lia.
  - exists m, 0. split; [lia|]. split; [lia|].
    apply round_canonical; [|lia]. fold d. rewrite Z.add_0_r, F. lia.
  - exists (Pos.iter xO m p), (Z.pos p). split; [lia|].
    split; [apply iter_xO_value|].
    change (- Z.pos p) with (Z.neg p).
    apply round_canonical; [|lia].
    rewrite iter_xO_digits. fold d.
    unfold fexp, SpecFloat.emin, prec, emax. lia.
Qed.

Lemma of_Z_small z :
  0 < z < 2 ^ 53 ->
  exists mz k,
    0 <= k /\ Z.pos mz = z * 2 ^ k
    /\ Prim2SF (of_Z z) = S754_finite false mz (- k).
Proof.
  intros [H0 H1]. destruct z as [|m|m]; try lia.
  destruct (normalize_small m H1) as (mz & k & Hk & Hv & Hn & Hb).
  exists mz, k. split; [exact Hk|]. split; [exact Hv|].
  unfold of_Z. rewrite Hn. apply Prim2SF_SF2Prim. exact Hb.
Qed.

(** Converting an integer and rounding it gives the integer back. *)
Lemma Math_round_of_Z z : 0 <= z < 2 ^ 53 -> Math_round (of_Z z) = JInt z.
Proof.
  intros [H0 H1]. destruct (Z.eq_dec z 0) as [->|N]; [reflexivity|].
  destruct (of_Z_small z) as (mz & k & Hk & Hv & E); [lia|].
  unfold Math_round. rewrite E. cbn [cond_Zopp]. f_equal.
  unfold round_half_up. rewrite Hv.
  destruct (Z.leb_spec 0 (- k)) as [L|L].
  - replace k with 0 by lia. cbn. lia.
  - replace (- - k) with k by lia.
    replace (1 - - k) with (Z.succ k) by lia.
    rewrite Z.pow_succ_r by lia.
    replace (2 * (z * 2 ^ k) + 2 ^ k) with (z * (2 * 2 ^ k) + 2 ^ k) by lia.
    assert (0 < 2 ^ k) by (apply Z.pow_pos_nonneg; lia).
    rewrite Z.div_add_l by lia. rewrite Z.div_small by lia. lia.
Qed.

Lemma SFmul_comm x y : SF64mul x y = SF64mul y x.
Proof.
  unfold SF64mul.
  destruct x as [s|s| |s m e], y as [t|t| |t n f]; cbn [SFmul];
    try reflexivity; try (rewrite xorb_comm; reflexivity).
  rewrite xorb_comm, Pos.mul_comm, Z.add_comm. reflexivity.
Qed.

Lemma mul_one (d : float) : (d * 1)%float = d.
Proof.
  rewrite <- (FloatFacts.one_mul d) at 2.
  apply Prim2SF_inj. rewrite !mul_spec. apply SFmul_comm.
Qed.

Lemma of_Z_div_self z : 0 < z < 2 ^ 53 -> (of_Z z / of_Z z)%float = 1%float.
Proof.
  intros H. destruct (of_Z_small z H) as (mz & k & _ & _ & E).
  exact (FloatFacts.div_self _ _ _ _ E).
Qed.

End IntegerDoubles.

(** * Sums of integers in binary64

    Integers below 2^53 in magnitude add and subtract without rounding as
    long as the result stays below 2^53 too. *)

Module ExactSums.


Local Open Scope Z_scope.

Lemma iter_pos_iter {A} (f : A -> A) p :
  forall x, iter_pos f p x = Pos.iter f x p.
Proof.
  induction p as [p IH|p IH|]; intros x; cbn [iter_pos Pos.iter].
  - rewrite !IH, <- !Pos.iter_swap. reflexivity.
  - rewrite !IH. reflexivity.
  - reflexivity.
Qed.

Lemma shr_exact m p :
  iter_pos shr_1 p
    {| shr_m := Z.pos (Pos.iter xO m p); shr_r := false; shr_s := false |}
  = {| shr_m := Z.pos m; shr_r := false; shr_s := false |}.
Proof.
  rewrite iter_pos_iter. induction p using Pos.peano_ind.
  - reflexivity.
  - rewrite Pos.iter_succ_r, Pos.iter_succ. cbn [shr_1 orb]. exact IHp.
Qed.

Lemma scaled_iter (M m : positive) (p : positive) :
  Z.pos M = Z.pos m * 2 ^ Z.pos p -> M = Pos.iter xO m p.
Proof.
  intros H. apply Pos2Z.inj. rewrite IntegerDoubles.iter_xO_value. exact H.
Qed.

Lemma scaled_digits (M m : positive) (k : Z) :
  0 <= k -> Z.pos M = Z.pos m * 2 ^ k ->
  Z.pos (digits2_pos M) = Z.pos (digits2_pos m) + k.
Proof.
  intros Hk H. destruct k as [|p|p]; try lia.
  - replace M with m by (apply Pos2Z.inj; lia). lia.
  - rewrite (scaled_iter M m p H). apply IntegerDoubles.iter_xO_digits.
Qed.

Lemma imant_value (m : positive) :
  Z.pos m < 2 ^ 53 ->
  Z.pos (imant (Z.pos m)) = Z.pos m * 2 ^ (53 - Z.pos (digits2_pos m)).
Proof.
  intros H. pose proof (IntegerDoubles.digits_le_53 m H) as D.
  unfold imant. cbn [Z.abs Zdigits2].
  assert (0 < 2 ^ (53 - Z.pos (digits2_pos m)))
    by (apply Z.pow_pos_nonneg; lia).
  rewrite Z2Pos.id by nia. reflexivity.
Qed.

Lemma imant_canonical (m : positive) :
  Z.pos m < 2 ^ 53 ->
  fexp prec emax (Z.pos (digits2_pos (imant (Z.pos m))) + iexp (Z.pos m))
  = iexp (Z.pos m).
Proof.
  intros H. pose proof (IntegerDoubles.digits_le_53 m H) as D.
  rewrite (scaled_digits _ m (53 - Z.pos (digits2_pos m)));
    [|lia|apply imant_value, H].
  unfold iexp, fexp, SpecFloat.emin, prec, emax. cbn [Zdigits2]. lia.
Qed.

(** Rounding a mantissa in canonical position, of either sign. *)
Lemma round_canonical_signed s mz ez :
  fexp prec emax (Z.pos (digits2_pos mz) + ez) = ez -> ez <= 0 ->
  binary_round_aux prec emax s (Z.pos mz) ez loc_Exact = S754_finite s mz ez.
Proof.
  intros C L. unfold binary_round_aux.
  rewrite (FloatFacts.shr_fexp_canonical _ _ C).
  cbn [shr_m loc_of_shr_record round_nearest_even].
  rewrite (FloatFacts.shr_fexp_canonical _ _ C).
  cbn [shr_m].
  destruct (Z.leb_spec ez (emax - prec)) as [_|G]; [reflexivity|].
  unfold emax, prec in G. lia.
Qed.

(** An integer below 2^53 written with [k] extra binary places rounds to
    the integer's own double. *)
Lemma binary_round_scaled s (m M : positive) (k : Z) :
  Z.pos m < 2 ^ 53 -> 0 <= k -> Z.pos M = Z.pos m * 2 ^ k ->
  binary_round prec emax s M (- k)
  = S754_finite s (imant (Z.pos m)) (iexp (Z.pos m)).
Proof.
  intros H Hk HM. pose proof (IntegerDoubles.digits_le_53 m H) as D.
  pose proof (imant_value m H) as V. pose proof (imant_canonical m H) as C.
  assert (L : iexp (Z.pos m) <= 0) by (unfold iexp; cbn [Zdigits2]; lia).
  unfold binary_round.
  rewrite (scaled_digits M m k Hk HM).
  replace (Z.pos (digits2_pos m) + k + - k) with (Z.pos (digits2_pos m))
    by lia.
  assert (F : fexp prec emax (Z.pos (digits2_pos m)) = iexp (Z.pos m)).
  { unfold iexp, fexp, SpecFloat.emin, prec, emax. cbn [Zdigits2]. lia. }
  rewrite F. set (t := iexp (Z.pos m)) in *.
  assert (T : t = Z.pos (digits2_pos m) - 53) by reflexivity.
  unfold shl_align.
  destruct (t - - k) as [|p|p] eqn:E.
  - replace M with (imant (Z.pos m)).
    + replace (- k) with t by lia. apply round_canonical_signed; assumption.
    + apply Pos2Z.inj. rewrite V, HM. f_equal. f_equal. lia.
  - assert (HM' : Z.pos M = Z.pos (imant (Z.pos m)) * 2 ^ Z.pos p).
    { rewrite V, HM, <- Z.mul_assoc, <- Z.pow_add_r by lia.
      f_equal. f_equal. lia. }
    rewrite (scaled_iter _ _ _ HM').
    unfold binary_round_aux, shr_fexp, Zdigits2.
    rewrite IntegerDoubles.iter_xO_digits.
    replace (Z.pos (digits2_pos (imant (Z.pos m))) + Z.pos p + - k)
      with (Z.pos (digits2_pos (imant (Z.pos m))) + t) by lia.
    rewrite C. rewrite E. cbn [shr shr_record_of_loc].
    rewrite shr_exact.
    cbn [shr_m loc_of_shr_record round_nearest_even].
    replace (- k + Z.pos p) with t by lia.
    change (shr {| shr_m := Z.pos (imant (Z.pos m)); shr_r := false;
                   shr_s := false |} t
              (fexp prec emax (Z.pos (digits2_pos (imant (Z.pos m))) + t) - t))
      with (shr_fexp prec emax (Z.pos (imant (Z.pos m))) t loc_Exact).
    rewrite (FloatFacts.shr_fexp_canonical _ _ C). cbn [shr_m].
    destruct (Z.leb_spec t (emax - prec)) as [_|G]; [reflexivity|].
    unfold emax, prec in G. lia.
  - assert (HM' : Z.pos (imant (Z.pos m)) = Z.pos M * 2 ^ Z.pos p).
    { rewrite V, HM, <- Z.mul_assoc, <- Z.pow_add_r by lia.
      f_equal. f_equal. lia. }
    rewrite <- (scaled_iter _ _ _ HM').
    apply round_canonical_signed; assumption.
Qed.


Lemma normalize_scaled (z k : Z) :
  z <> 0 -> Z.abs z < 2 ^ 53 -> 0 <= k ->
  binary_normalize prec emax (z * 2 ^ k) (- k) false
  = S754_finite (z <? 0) (imant z) (iexp z).
Proof.
  intros N H Hk.
  assert (P : 0 < 2 ^ k) by (apply Z.pow_pos_nonneg; lia).
  destruct z as [|m|m]; [contradiction| |].
  - destruct (Z.pos m * 2 ^ k) as [|M|M] eqn:E; try nia.
    cbn [binary_normalize]. apply binary_round_scaled; [exact H|exact Hk|].
    symmetry. exact E.
  - destruct (Z.neg m * 2 ^ k) as [|M|M] eqn:E; try nia.
    cbn [binary_normalize].
    change (imant (Z.neg m)) with (imant (Z.pos m)).
    change (iexp (Z.neg m)) with (iexp (Z.pos m)).
    apply binary_round_scaled; [exact H|exact Hk|]. lia.
Qed.

Lemma imant_bounded (z : Z) :
  z <> 0 -> Z.abs z < 2 ^ 53 -> bounded prec emax (imant z) (iexp z) = true.
Proof.
  intros N H.
  assert (B : forall m, Z.pos m < 2 ^ 53 ->
                bounded prec emax (imant (Z.pos m)) (iexp (Z.pos m)) = true).
  { intros m Hm. unfold bounded, canonical_mantissa.
    rewrite (imant_canonical m Hm), Z.eqb_refl.
    pose proof (IntegerDoubles.digits_le_53 m Hm).
    apply Z.leb_le. unfold iexp, emax, prec. cbn [Zdigits2]. lia. }
  destruct z as [|m|m]; [contradiction|apply B, H|].
  change (imant (Z.neg m)) with (imant (Z.pos m)).
  change (iexp (Z.neg m)) with (iexp (Z.pos m)). apply B, H.
Qed.

(** The double of a non-zero integer below 2^53 in magnitude. *)
Lemma of_Z_SF (z : Z) :
  z <> 0 -> Z.abs z < 2 ^ 53 ->
  Prim2SF (of_Z z) = S754_finite (z <? 0) (imant z) (iexp z).
Proof.
  intros N H. unfold of_Z.
  pose proof (normalize_scaled z 0 N H (Z.le_refl 0)) as E.
  rewrite Z.mul_1_r in E. change (- 0) with 0 in E. rewrite E.
  apply Prim2SF_SF2Prim, imant_bounded; assumption.
Qed.

Lemma of_Z_zero : Prim2SF (of_Z 0) = S754_zero false.
Proof. reflexivity. Qed.

Lemma imant_signed (z : Z) :
  z <> 0 -> Z.abs z < 2 ^ 53 ->
  cond_Zopp (z <? 0) (Z.pos (imant z)) = z * 2 ^ (- iexp z) /\ iexp z <= 0.
Proof.
  intros N H.
  destruct z as [|m|m]; [contradiction| |].
  - pose proof (IntegerDoubles.digits_le_53 m H).
    rewrite (imant_value m H). unfold iexp.
    cbn [Zdigits2 Z.ltb Z.compare cond_Zopp].
    split; [f_equal; f_equal; lia|lia].
  - pose proof (IntegerDoubles.digits_le_53 m H).
    change (imant (Z.neg m)) with (imant (Z.pos m)).
    rewrite (imant_value m H). unfold iexp.
    cbn [Zdigits2 Z.ltb Z.compare cond_Zopp].
    split; [|lia].
    replace (- (Z.pos (digits2_pos m) - 53)) with (53 - Z.pos (digits2_pos m))
      by lia. lia.
Qed.

Lemma shl_align_value (m : positive) (e e' : Z) :
  e' <= e -> Z.pos (fst (shl_align m e e')) = Z.pos m * 2 ^ (e - e').
Proof.
  intros L. unfold shl_align.
  destruct (e' - e) as [|p|p] eqn:E; try lia.
  - replace (e - e') with 0 by lia. cbn [fst]. lia.
  - cbn [fst]. rewrite IntegerDoubles.iter_xO_value. f_equal. f_equal. lia.
Qed.

(** The aligned signed mantissa of an integer. *)
Lemma aligned (z e : Z) :
  z <> 0 -> Z.abs z < 2 ^ 53 -> e <= iexp z ->
  cond_Zopp (z <? 0) (Z.pos (fst (shl_align (imant z) (iexp z) e)))
  = z * 2 ^ (- e).
Proof.
  intros N H L. destruct (imant_signed z N H) as [V C].
  rewrite (shl_align_value _ _ _ L).
  replace (- e) with (- iexp z + (iexp z - e)) by lia.
  rewrite Z.pow_add_r, Z.mul_assoc, <- V by lia.
  destruct (z <? 0); cbn [cond_Zopp]; lia.
Qed.

Lemma normalize_sum (z e : Z) :
  Z.abs z < 2 ^ 53 -> e <= 0 ->
  binary_normalize prec emax (z * 2 ^ (- e)) e false = Prim2SF (of_Z z).
Proof.
  intros H L. destruct (Z.eq_dec z 0) as [->|N]; [reflexivity|].
  rewrite (of_Z_SF z N H).
  rewrite <- (normalize_scaled z (- e) N H) by lia.
  f_equal. lia.
Qed.

(** Sums and differences of integers are exact while everything stays
    below 2^53 in magnitude. *)
Lemma add_of_Z (a b : Z) :
  Z.abs a < 2 ^ 53 -> Z.abs b < 2 ^ 53 -> Z.abs (a + b) < 2 ^ 53 ->
  (of_Z a + of_Z b)%float = of_Z (a + b).
Proof.
  intros Ha Hb Hs. apply Prim2SF_inj. rewrite add_spec.
  destruct (Z.eq_dec a 0) as [->|Na].
  { rewrite of_Z_zero. cbn [Z.add].
    destruct (Z.eq_dec b 0) as [->|Nb]; [reflexivity|].
    rewrite (of_Z_SF b Nb Hb). reflexivity. }
  destruct (Z.eq_dec b 0) as [->|Nb].
  { rewrite of_Z_zero, Z.add_0_r, (of_Z_SF a Na Ha). reflexivity. }
  rewrite (of_Z_SF a Na Ha), (of_Z_SF b Nb Hb).
  unfold SF64add. cbn [SFadd].
  destruct (imant_signed a Na Ha) as [_ Ca], (imant_signed b Nb Hb) as [_ Cb].
  change (IntDef.Z.min (iexp a) (iexp b)) with (Z.min (iexp a) (iexp b)).
  rewrite (aligned a _ Na Ha) by lia. rewrite (aligned b _ Nb Hb) by lia.
  rewrite <- Z.mul_add_distr_r.
  apply normalize_sum; [exact Hs|lia].
Qed.

Lemma sub_of_Z (a b : Z) :
  Z.abs a < 2 ^ 53 -> Z.abs b < 2 ^ 53 -> Z.abs (a - b) < 2 ^ 53 ->
  (of_Z a - of_Z b)%float = of_Z (a - b).
Proof.
  intros Ha Hb Hs. apply Prim2SF_inj. rewrite sub_spec.
  destruct (Z.eq_dec b 0) as [->|Nb].
  { rewrite of_Z_zero, Z.sub_0_r.
    destruct (Z.eq_dec a 0) as [->|Na]; [reflexivity|].
    rewrite (of_Z_SF a Na Ha). reflexivity. }
  destruct (Z.eq_dec a 0) as [->|Na].
  { rewrite of_Z_zero, (of_Z_SF b Nb Hb). cbn [Z.sub Z.add].
    rewrite (of_Z_SF (- b)) by lia.
    unfold SF64sub. cbn [SFsub].
    replace (- b <? 0) with (negb (b <? 0)).
    - destruct b; try contradiction; reflexivity.
    - destruct b; try contradiction; reflexivity. }
  rewrite (of_Z_SF a Na Ha), (of_Z_SF b Nb Hb).
  unfold SF64sub. cbn [SFsub].
  destruct (imant_signed a Na Ha) as [_ Ca], (imant_signed b Nb Hb) as [_ Cb].
  change (IntDef.Z.min (iexp a) (iexp b)) with (Z.min (iexp a) (iexp b)).
  rewrite (aligned a _ Na Ha) by lia. rewrite (aligned b _ Nb Hb) by lia.
  rewrite <- Z.mul_sub_distr_r.
  apply normalize_sum; [exact Hs|lia].
Qed.

(** Going up from [a] by the distance to [b] arrives at [b]. *)
Lemma round_trip_of_Z (a b : Z) :
  Z.abs a < 2 ^ 53 -> Z.abs b < 2 ^ 53 -> Z.abs (b - a) < 2 ^ 53 ->
  (of_Z a + (of_Z b - of_Z a))%float = of_Z b.
Proof.
  intros Ha Hb Hd. rewrite (sub_of_Z b a Hb Ha Hd).
  rewrite (add_of_Z a (b - a) Ha Hd) by (replace (a + (b - a)) with b; lia).
  f_equal. lia.
Qed.

(** Going up from zero by the distance to [v] arrives at [v]. *)
Lemma round_trip_zero (v0 v : float) :
  (v0 =? 0)%float = true -> (v0 <? v)%float = true ->
  is_finite (v - v0) = true ->
  (v0 + (v - v0))%float = v.
Proof.
  rewrite eqb_spec, ltb_spec, FloatFacts.is_finite_SF. intros E L F.
  assert (D : (v - v0)%float = v).
  { apply Prim2SF_inj. revert F. rewrite sub_spec.
    destruct (Prim2SF v0) as [s|s| |s m e]; try discriminate E;
      try (destruct s; discriminate E).
    destruct (Prim2SF v) as [t|t| |t n f]; try discriminate L;
      try (destruct t; discriminate L); reflexivity. }
  rewrite D. apply Prim2SF_inj. rewrite add_spec.
  rewrite D in F.
  destruct (Prim2SF v0) as [s|s| |s m e]; try discriminate E;
    try (destruct s; discriminate E).
  destruct (Prim2SF v) as [t|t| |t n f]; try discriminate L;
    try (destruct t; discriminate L); try reflexivity.
Qed.

End ExactSums.

(** * Calibration *)

(** On the sample page the two clicks land where they were made. *)
Example sample_two_clicks :
  calib (marks (run (two_clicks 500 100) (sample_page 0 1000)))
  = [(50, 500); (60, 100)]%float.
Proof. vm_compute. reflexivity. Qed.

(** On success the handler stores the closure over the four constants and
    captures the two selections. *)
Lemma setCalib_success (s : State) (xb yb xt yt : float) (rest : list Point) :
  calib (marks s) = (xb, yb) :: (xt, yt) :: rest ->
  is_nan (vmin_of s) = false -> is_nan (vmax_of s) = false ->
  (abs (yb - yt) <? 1e-6)%float = false ->
  setCalibBtn_onclick s
  = (set_marks
       {| calib := calib (marks s);
          monthPts := monthPts (marks s);
          affine := Some {| c_vmin := vmin_of s; c_yb := yb;
                            c_pixelRange := (yb - yt)%float;
                            c_dataRange := (vmax_of s - vmin_of s)%float |};
          mode := Some (modeEl_value (inputs s));
          startIdx := Some (indexOf monthNames (startEl_value (inputs s))) |}
       s, []).
Proof.
  unfold setCalibBtn_onclick, vmin_of, vmax_of. intros Hc Hmin Hmax Hp.
  rewrite Hc, Hmin, Hmax, Hp. reflexivity.
Qed.

(** Whatever the handler answers, the stored map is either the old one or a
    closure built from the current calibration set and fields. *)
Lemma setCalib_affine (s : State) :
  affine (marks (fst (setCalibBtn_onclick s))) = affine (marks s)
  \/ exists xb yb xt yt rest,
       calib (marks s) = (xb, yb) :: (xt, yt) :: rest
       /\ is_nan (vmin_of s) = false /\ is_nan (vmax_of s) = false
       /\ (abs (yb - yt) <? 1e-6)%float = false
       /\ affine (marks (fst (setCalibBtn_onclick s)))
          = Some {| c_vmin := vmin_of s; c_yb := yb;
                    c_pixelRange := (yb - yt)%float;
                    c_dataRange := (vmax_of s - vmin_of s)%float |}.
Proof.
  unfold setCalibBtn_onclick, vmin_of, vmax_of.
  destruct (calib (marks s)) as [|[xb yb] [|[xt yt] rest]]; auto.
  destruct (is_nan (yminEl_value (inputs s))) eqn:E1; auto.
  destruct (is_nan (ymaxEl_value (inputs s))) eqn:E2; auto.
  destruct (abs (yb - yt) <? 1e-6)%float eqn:E3; auto.
  right. exists xb, yb, xt, yt, rest. simpl. auto.
Qed.

(** C1. With two calibration points whose ordinates differ by at least 1e-6
    and finite bounds, "Set calibration" succeeds silently and stores the map
    [value(x,y) = vmin + ((yb - y) / (yb - yt)) * (vmax - vmin)]; with the
    points at y = 500 (value 0) and y = 100 (value 1000), a month point at
    y = 300 reads 500. *)
Theorem buildAffine_formula (s : State) (xb yb xt yt : float) :
  calib (marks s) = [(xb, yb); (xt, yt)] ->
  is_finite (vmin_of s) = true -> is_finite (vmax_of s) = true ->
  (1e-6 <=? abs (yb - yt))%float = true ->
  exists a,
    affine (marks (fst (setCalibBtn_onclick s))) = Some a
    /\ snd (setCalibBtn_onclick s) = []
    /\ (forall x y,
           call a x y = spec_value (vmin_of s) (vmax_of s) yb yt x y)
    /\ (yb = 500%float -> yt = 100%float ->
        vmin_of s = 0%float -> vmax_of s = 1000%float ->
        forall x, call a x 300 = 500%float).
Proof.
  intros Hc Hmin Hmax Hp.
  apply FloatFacts.is_finite_not_nan in Hmin, Hmax.
  apply FloatFacts.leb_not_ltb in Hp.
  rewrite (setCalib_success s xb yb xt yt [] Hc Hmin Hmax Hp).
  eexists. split; [reflexivity|]. split; [reflexivity|]. split.
  - intros x y. reflexivity.
  - intros -> -> E0 E1 x. unfold call. simpl. rewrite E0, E1. reflexivity.
Qed.

Lemma buildAffine_formula_witness :
  let s := run (two_clicks 500 100) (sample_page 0 1000) in
  calib (marks s) = [(50, 500); (60, 100)]%float
  /\ is_finite (vmin_of s) = true /\ is_finite (vmax_of s) = true
  /\ (1e-6 <=? abs (500 - 100))%float = true
  /\ exists a,
       affine (marks (fst (setCalibBtn_onclick s))) = Some a
       /\ snd (setCalibBtn_onclick s) = []
       /\ (forall x y, call a x y = spec_value 0 1000 500 100 x y)
       /\ forall x, call a x 300 = 500%float.
Proof.
  intros s.
  split; [reflexivity|]. split; [reflexivity|]. split; [reflexivity|].
  split; [reflexivity|].
  destruct (buildAffine_formula s 50 500 60 100) as [a [Ha [Ho [Hv Hs]]]];
    try reflexivity.
  exists a. split; [exact Ha|]. split; [exact Ho|]. split; [exact Hv|].
  apply Hs; reflexivity.
Defined.

(** C9. The map that "Set calibration" leaves in [affine] does not look at
    its first argument. *)
Theorem affine_ignores_x (s : State) (a : Affine) :
  affine (marks (fst (setCalibBtn_onclick s))) = Some a ->
  forall x1 x2 y, call a x1 y = call a x2 y.
Proof.
  intros _ x1 x2 y. reflexivity.
Qed.

Lemma affine_ignores_x_witness :
  let s := run (two_clicks 500 100) (sample_page 0 1000) in
  exists a,
    affine (marks (fst (setCalibBtn_onclick s))) = Some a
    /\ call a 10 300 = call a 700 300.
Proof.
  intros s. eexists.
  refine ((fun H => conj H (affine_ignores_x s _ H 10 700 300)%float) _).
  reflexivity.
Defined.

(** The handler either changes nothing or answers silently. *)
Lemma setCalib_failure_keeps_state (s : State) :
  snd (setCalibBtn_onclick s) <> [] -> fst (setCalibBtn_onclick s) = s.
Proof.
  unfold setCalibBtn_onclick.
  destruct (calib (marks s)) as [|[xb yb] [|[xt yt] rest]]; try reflexivity.
  destruct (is_nan (yminEl_value (inputs s)) || is_nan (ymaxEl_value (inputs s)));
    try reflexivity.
  destruct (abs (yb - yt) <? 1e-6)%float; try reflexivity.
  simpl. congruence.
Qed.

(** C4, as the code has it.  With two calibration points in place,
    "Set calibration" fails with InvalidInput exactly when one of the bounds
    does not parse, and with InvalidCalibration exactly when both bounds
    parse and [|yb - yt| < 1e-6]; whenever it reports anything the state is
    left as it was. *)
Theorem buildAffine_failures (s : State) (xb yb xt yt : float) :
  calib (marks s) = [(xb, yb); (xt, yt)] ->
  (InvalidInput (snd (setCalibBtn_onclick s))
   <-> is_nan (vmin_of s) = true \/ is_nan (vmax_of s) = true)
  /\ (InvalidCalibration (snd (setCalibBtn_onclick s))
      <-> is_nan (vmin_of s) = false /\ is_nan (vmax_of s) = false
          /\ (abs (yb - yt) <? 1e-6)%float = true)
  /\ (snd (setCalibBtn_onclick s) <> [] -> fst (setCalibBtn_onclick s) = s).
Proof.
  intros Hc. split; [|split]; [| |apply setCalib_failure_keeps_state];
    unfold InvalidInput, InvalidCalibration, setCalibBtn_onclick, vmin_of,
      vmax_of; rewrite Hc;
    destruct (is_nan (yminEl_value (inputs s)));
    destruct (is_nan (ymaxEl_value (inputs s)));
    destruct (abs (yb - yt) <? 1e-6)%float; simpl;
    (split; [intros H; try discriminate H; auto
            | intros H; try reflexivity; intuition discriminate]).
Qed.

Lemma buildAffine_failures_witness :
  let s := run (two_clicks 100 100) (sample_page 0 10) in
  calib (marks s) = [(50, 100); (60, 100)]%float
  /\ InvalidCalibration (snd (setCalibBtn_onclick s))
  /\ fst (setCalibBtn_onclick s) = s.
Proof.
  intros s.
  refine ((fun H => conj H _) (eq_refl : calib (marks s) = [(50, 100); (60, 100)]%float)).
  destruct (buildAffine_failures s 50 100 60 100 H) as [_ [Hcal Hkeep]].
  split.
  - apply Hcal. repeat split; reflexivity.
  - apply Hkeep. discriminate.
Defined.

(** C4 as stated fails: with equal ordinates and a bound that does not
    parse, the condition [|yb - yt| < 1e-6] holds but the failure reported is
    InvalidInput, not InvalidCalibration. *)
Lemma buildAffine_failures_counterexample :
  let s := run (two_clicks 100 100) (sample_page nan 10) in
  calib (marks s) = [(50, 100); (60, 100)]%float
  /\ (abs (100 - 100) <? 1e-6)%float = true
  /\ InvalidInput (snd (setCalibBtn_onclick s))
  /\ ~ InvalidCalibration (snd (setCalibBtn_onclick s)).
Proof.
  intros s. split; [reflexivity|]. split; [reflexivity|].
  split; [reflexivity|]. intros H. discriminate H.
Qed.

(** The two endpoint values of a map built from [yb], [yt], [vmin], [vmax]
    in binary64 arithmetic. *)
Lemma endpoints (vmin vmax yb yt x : float) :
  (1e-6 <=? abs (yb - yt))%float = true ->
  (vmin <? vmax)%float = true ->
  is_finite (yb - yt) = true ->
  is_finite (vmax - vmin) = true ->
  (spec_value vmin vmax yb yt x yb =? vmin)%float = true
  /\ spec_value vmin vmax yb yt x yt = (vmin + (vmax - vmin))%float.
Proof.
  intros Hfar Hlt Hp Hd. unfold spec_value. split.
  - rewrite eqb_spec, add_spec, mul_spec, div_spec.
    rewrite (FloatFacts.sub_self yb (FloatFacts.sub_finite_left yb yt Hp)).
    apply FloatFacts.bottom_endpoint_SF.
    + apply (FloatFacts.ltb_not_nan vmin vmax Hlt).
    + apply FloatFacts.far_apart_SF, Hfar.
    + rewrite FloatFacts.is_finite_SF in Hd.
      destruct (Prim2SF (vmax - vmin)); try discriminate; trivial.
  - pose proof (FloatFacts.far_apart_SF _ Hfar) as Hc.
    rewrite FloatFacts.is_finite_SF in Hp.
    destruct (Prim2SF (yb - yt)) as [s|s| |s m e] eqn:E;
      try discriminate; try contradiction.
    rewrite (FloatFacts.div_self _ s m e E), FloatFacts.one_mul. reflexivity.
Qed.

(** C5, as the code has it.  For two calibration points at least 1e-6 apart
    with a finite pixel range, and bounds [vmin < vmax] with a finite data
    range, the stored map returns [vmin] at the bottom reference, and at the
    top reference it returns the binary64 sum [vmin + (vmax - vmin)].  That
    sum is [vmax] itself when [vmin] is zero, and when both bounds are
    integers that are, like their difference, below 2^53 in magnitude. *)
Theorem endpoints_round_trip (s : State) (xb yb xt yt : float) :
  calib (marks s) = [(xb, yb); (xt, yt)] ->
  (1e-6 <=? abs (yb - yt))%float = true ->
  (vmin_of s <? vmax_of s)%float = true ->
  is_finite (yb - yt) = true ->
  is_finite (vmax_of s - vmin_of s) = true ->
  exists a,
    affine (marks (fst (setCalibBtn_onclick s))) = Some a
    /\ forall x,
         (call a x yb =? vmin_of s)%float = true
         /\ call a x yt = (vmin_of s + (vmax_of s - vmin_of s))%float
         /\ ((vmin_of s + (vmax_of s - vmin_of s))%float = vmax_of s ->
             call a x yt = vmax_of s)
         /\ ((vmin_of s =? 0)%float = true -> call a x yt = vmax_of s)
         /\ (forall zmin zmax : Z,
               vmin_of s = of_Z zmin -> vmax_of s = of_Z zmax ->
               (Z.abs zmin < 2 ^ 53)%Z -> (Z.abs zmax < 2 ^ 53)%Z ->
               (Z.abs (zmax - zmin) < 2 ^ 53)%Z ->
               call a x yt = vmax_of s).
Proof.
  intros Hc Hfar Hlt Hp Hd.
  destruct (FloatFacts.ltb_not_nan _ _ Hlt) as [Hmin Hmax].
  assert (Nmin : is_nan (vmin_of s) = false).
  { rewrite FloatFacts.is_nan_SF.
    destruct (Prim2SF (vmin_of s)); congruence. }
  assert (Nmax : is_nan (vmax_of s) = false).
  { rewrite FloatFacts.is_nan_SF.
    destruct (Prim2SF (vmax_of s)); congruence. }
  rewrite (setCalib_success s xb yb xt yt [] Hc Nmin Nmax
             (FloatFacts.leb_not_ltb _ _ Hfar)).
  eexists. split; [reflexivity|]. intros x.
  destruct (endpoints (vmin_of s) (vmax_of s) yb yt x Hfar Hlt Hp Hd)
    as [Hb Ht].
  split; [exact Hb|]. split; [exact Ht|].
  split; [intros E; rewrite <- E at 2; exact Ht|].
  split.
  - intros Z0. etransitivity; [exact Ht|].
    exact (ExactSums.round_trip_zero _ _ Z0 Hlt Hd).
  - intros zmin zmax Emin Emax Bmin Bmax Bd.
    etransitivity; [exact Ht|]. rewrite Emin, Emax.
    exact (ExactSums.round_trip_of_Z zmin zmax Bmin Bmax Bd).
Qed.

Lemma endpoints_round_trip_witness :
  let s := run (two_clicks 500 100) (sample_page 0 1000) in
  let s' := run (two_clicks 500 100) (sample_page 100 900) in
  calib (marks s) = [(50, 500); (60, 100)]%float
  /\ (exists a,
        affine (marks (fst (setCalibBtn_onclick s))) = Some a
        /\ (call a 7 500 =? 0)%float = true
        /\ call a 7 100 = 1000%float)
  /\ calib (marks s') = [(50, 500); (60, 100)]%float
  /\ vmin_of s' = of_Z 100 /\ vmax_of s' = of_Z 900
  /\ exists a',
       affine (marks (fst (setCalibBtn_onclick s'))) = Some a'
       /\ call a' 7 100 = 900%float.
Proof.
  intros s s'.
  refine ((fun H => conj H _)
            (eq_refl : calib (marks s) = [(50, 500); (60, 100)]%float)).
  split.
  { destruct (endpoints_round_trip s 50 500 60 100 H) as [a [Ha Hx]];
      try reflexivity.
    exists a. split; [exact Ha|].
    destruct (Hx 7%float) as [Hb [_ [Ht _]]].
    split; [exact Hb|]. apply Ht. reflexivity. }
  refine ((fun H' => conj H' _)
            (eq_refl : calib (marks s') = [(50, 500); (60, 100)]%float)).
  assert (Emin : vmin_of s' = of_Z 100) by (vm_compute; reflexivity).
  assert (Emax : vmax_of s' = of_Z 900) by (vm_compute; reflexivity).
  split; [exact Emin|]. split; [exact Emax|].
  destruct (endpoints_round_trip s' 50 500 60 100 H') as [a' [Ha' Hx']];
    try reflexivity.
  exists a'. split; [exact Ha'|].
  destruct (Hx' 7%float) as [_ [_ [_ [_ Hi]]]].
  exact (Hi 100%Z 900%Z Emin Emax eq_refl eq_refl eq_refl).
Defined.

(** C5 as stated fails: with bounds 0.2 and 0.9 the value at the top
    reference is [0.2 + (0.9 - 0.2)], one unit in the last place below 0.9. *)
Lemma endpoints_round_trip_counterexample :
  let s := run (two_clicks 500 100) (sample_page 0.2 0.9) in
  calib (marks s) = [(50, 500); (60, 100)]%float
  /\ (1e-6 <=? abs (500 - 100))%float = true
  /\ (vmin_of s <? vmax_of s)%float = true
  /\ exists a,
       affine (marks (fst (setCalibBtn_onclick s))) = Some a
       /\ (call a 60 100 =? vmax_of s)%float = false
       /\ call a 60 100 = 0.8999999999999999%float.
Proof.
  intros s. split; [reflexivity|]. split; [reflexivity|].
  split; [reflexivity|]. eexists. split; [reflexivity|].
  split; reflexivity.
Qed.

(** * Compute results *)

Lemma lookup_of_nat {A : Type} (l : list A) (j : nat) :
  lookup l (Z.of_nat j) = nth_error l j.
Proof.
  unfold lookup. destruct (Z.ltb_spec (Z.of_nat j) 0) as [H|H]; [lia|].
  now rewrite Nat2Z.id.
Qed.

Lemma lookup_month {A : Type} (l : list A) (d : A) (r : Z) :
  List.length l = 12%nat -> (0 <= r < 12)%Z ->
  lookup l r = Some (nth (Z.to_nat r) l d).
Proof.
  intros Hl Hr. unfold lookup.
  destruct (Z.ltb_spec r 0) as [H|H]; [lia|].
  apply nth_error_nth'. lia.
Qed.

(** One turn of the loop on row [j], for a start index that is not negative. *)
Lemma computeResults_body_row (a : Affine) (pts : list Point) (md : string)
    (k : Z) (j : nat) (p : Point) (t : float) (rs : list Row) :
  (0 <= k)%Z -> nth_error pts j = Some p ->
  computeResults_body a pts (Some md) (Some k) (Z.of_nat j) (t, rs)
  = Some ((t + finalVal (spec_row a md k j p))%float,
          rs ++ [spec_row a md k j p]).
Proof.
  intros Hk Hp. unfold computeResults_body, spec_row.
  rewrite lookup_of_nat, Hp. destruct p as [x y].
  unfold month_index, at_index, is_daily. cbn [option_map fst snd].
  rewrite Z.rem_mod_nonneg by lia.
  assert (Hr : (0 <= (k + Z.of_nat j) mod 12 < 12)%Z)
    by (apply Z.mod_pos_bound; lia).
  rewrite (lookup_month daysInMonth nan _ eq_refl Hr).
  rewrite (lookup_month monthNames ""%string _ eq_refl Hr).
  cbn [finalVal axisVal].
  destruct (String.eqb md "Daily average"); reflexivity.
Qed.

(** The loop over rows [j .. j+n-1]. *)
Lemma for_loop_rows (a : Affine) (pts : list Point) (md : string) (k : Z) :
  (0 <= k)%Z ->
  forall (n j : nat) (t : float) (rs : list Row),
    (j + n <= List.length pts)%nat ->
    for_loop n (Z.of_nat j) (computeResults_body a pts (Some md) (Some k))
      (t, rs)
    = (fold_left (fun t r => (t + finalVal r)%float)
         (spec_rows a md k j (firstn n (skipn j pts))) t,
       rs ++ spec_rows a md k j (firstn n (skipn j pts)),
       true).
Proof.
  intros Hk. induction n as [|n IH]; intros j t rs Hlen.
  - cbn. now rewrite app_nil_r.
  - destruct (nth_error pts j) as [p|] eqn:Hp.
    2:{ apply nth_error_None in Hp. lia. }
    assert (Hs : skipn j pts = p :: skipn (S j) pts).
    { clear -Hp. revert pts Hp. induction j as [|j IHj]; intros [|q pts] Hp;
        try discriminate.
      - cbn in Hp. now injection Hp as ->.
      - cbn in Hp. cbn [skipn]. now apply IHj. }
    rewrite Hs. cbn [for_loop firstn spec_rows fold_left].
    rewrite (computeResults_body_row a pts md k j p t rs Hk Hp).
    replace (Z.of_nat j + 1)%Z with (Z.of_nat (S j)) by lia.
    rewrite IH by lia. now rewrite <- app_assoc.
Qed.

Lemma spec_rows_length a md k j pts :
  List.length (spec_rows a md k j pts) = List.length pts.
Proof.
  revert j. induction pts as [|p pts IH]; intros j; cbn; [|rewrite IH];
    reflexivity.
Qed.

Lemma spec_rows_nth a md k pts :
  forall j i p,
    nth_error pts i = Some p ->
    nth_error (spec_rows a md k j pts) i = Some (spec_row a md k (j + i) p).
Proof.
  induction pts as [|q pts IH]; intros j [|i] p H; try discriminate.
  - cbn in *. injection H as ->. now rewrite Nat.add_0_r.
  - cbn in *. rewrite (IH (S j) i p H). f_equal. f_equal. lia.
Qed.

(** What the engine leaves in the report when it runs over twelve points. *)
Lemma computeResults_report (s : State) (a : Affine) (md : string) (k : Z) :
  affine (marks s) = Some a ->
  List.length (monthPts (marks s)) = 12%nat ->
  mode (marks s) = Some md ->
  startIdx (marks s) = Some k ->
  (0 <= k)%Z ->
  report (computeResults s)
  = {| resultsTable := Some (spec_rows a md k 0 (monthPts (marks s)));
       annualLabel :=
         Some (sum_finalVal (spec_rows a md k 0 (monthPts (marks s)))) |}.
Proof.
  intros Ha Hl Hm Hs Hk. unfold computeResults. rewrite Ha, Hl, Hm, Hs.
  cbn [Nat.ltb Nat.leb].
  pose proof (for_loop_rows a (monthPts (marks s)) md k Hk 12 0 0%float [])
    as L.
  cbn [Z.of_nat] in L. rewrite L by lia.
  cbn [skipn app]. rewrite <- Hl, firstn_all. reflexivity.
Qed.

(** C2. Over twelve month points, a map [a], a mode [md] and a start index
    [k] in 0..11, the engine writes twelve rows in the order the points were
    clicked; row [i] has [axisVal = a(x_i, y_i)], is labelled with month
    [(k + i) mod 12], and has [finalVal = axisVal * days((k + i) mod 12)] in
    mode "Daily average" and [finalVal = axisVal] otherwise; the annual total
    is the sum of the twelve final values. *)
Theorem computeResults_rows (s : State) (a : Affine) (md : string) (k : Z) :
  affine (marks s) = Some a ->
  List.length (monthPts (marks s)) = 12%nat ->
  mode (marks s) = Some md ->
  startIdx (marks s) = Some k ->
  (0 <= k <= 11)%Z ->
  exists rows,
    resultsTable (report (computeResults s)) = Some rows
    /\ List.length rows = 12%nat
    /\ (forall i x y,
           nth_error (monthPts (marks s)) i = Some (x, y) ->
           exists r,
             nth_error rows i = Some r
             /\ axisVal r = call a x y
             /\ monthName r
                = nth_error monthNames (Z.to_nat ((k + Z.of_nat i) mod 12))
             /\ finalVal r
                = if String.eqb md "Daily average"
                  then (axisVal r
                        * nth (Z.to_nat ((k + Z.of_nat i) mod 12))
                            daysInMonth nan)%float
                  else axisVal r)
    /\ annualLabel (report (computeResults s)) = Some (sum_finalVal rows).
Proof.
  intros Ha Hl Hm Hs Hk.
  rewrite (computeResults_report s a md k Ha Hl Hm Hs) by lia.
  eexists. split; [reflexivity|]. split; [|split; [|reflexivity]].
  - now rewrite spec_rows_length.
  - intros i x y Hi.
    exists (spec_row a md k i (x, y)). split.
    + now rewrite (spec_rows_nth a md k _ 0 i (x, y) Hi).
    + unfold spec_row. cbn [axisVal monthName finalVal fst snd].
      split; [reflexivity|]. split; [|reflexivity].
      symmetry. apply nth_error_nth'.
      assert ((0 <= (k + Z.of_nat i) mod 12 < 12)%Z)
        by (apply Z.mod_pos_bound; lia).
      change (List.length monthNames) with 12%nat. lia.
Qed.

Lemma computeResults_rows_witness :
  let a := {| c_vmin := 0; c_yb := 500; c_pixelRange := 400;
              c_dataRange := 1000 |}%float in
  affine (marks sample_twelve) = Some a
  /\ List.length (monthPts (marks sample_twelve)) = 12%nat
  /\ mode (marks sample_twelve) = Some "Daily average"%string
  /\ startIdx (marks sample_twelve) = Some 2%Z
  /\ exists rows,
       resultsTable (report (computeResults sample_twelve)) = Some rows
       /\ List.length rows = 12%nat
       /\ (exists r,
              nth_error rows 10 = Some r
              /\ axisVal r = call a 100 200
              /\ monthName r = Some "Jan"%string
              /\ finalVal r = (axisVal r * 31)%float)
       /\ annualLabel (report (computeResults sample_twelve))
          = Some (sum_finalVal rows).
Proof.
  intros a.
  refine ((fun Ha Hl Hm Hs =>
             conj Ha (conj Hl (conj Hm (conj Hs _))))
            (eq_refl : affine (marks sample_twelve) = Some a)
            (eq_refl : List.length (monthPts (marks sample_twelve)) = 12%nat)
            (eq_refl : mode (marks sample_twelve) = Some "Daily average"%string)
            (eq_refl : startIdx (marks sample_twelve) = Some 2%Z)).
  destruct (computeResults_rows sample_twelve a "Daily average"%string 2
              Ha Hl Hm Hs) as [rows [Hr [Hn [Hrow Ht]]]]; [lia|].
  exists rows. split; [exact Hr|]. split; [exact Hn|]. split; [|exact Ht].
  apply (Hrow 10%nat 100%float 200%float). reflexivity.
Defined.

(** * Clamping a crop box *)

Lemma Math_round_numeric (v : float) :
  is_nan v = false -> Math_round v <> JNaN.
Proof.
  rewrite FloatFacts.is_nan_SF. unfold Math_round.
  destruct (Prim2SF v); congruence.
Qed.

(** One coordinate: a rounded number that is not NaN is brought into
    [[0, hi]]. *)
Lemma clamp_coordinate (hi : Z) (r : jsint) :
  (0 <= hi)%Z -> r <> JNaN ->
  Math_max (JInt 0) (Math_min (JInt hi) r) = JInt (clamp_to hi r)
  /\ (0 <= clamp_to hi r <= hi)%Z.
Proof.
  intros Hhi Hr. destruct r as [|[|]|q]; try congruence; cbn.
  - destruct (Z.leb_spec 0 0); [|lia]. split; [reflexivity|lia].
  - destruct (Z.leb_spec 0 hi); [|lia]. split; [reflexivity|lia].
  - destruct (Z.leb_spec hi q); cbn.
    + destruct (Z.leb_spec 0 hi); [|lia]. split; [f_equal|]; lia.
    + destruct (Z.leb_spec 0 q); (split; [f_equal|]; lia).
Qed.

(** C8. On a canvas of size [W x H], [clampCanvasBox] rounds the four
    fields of a box of numbers and clamps [x] into [[0, W]], [y] into
    [[0, H]], [w] into [[0, W - x]] and [h] into [[0, H - y]]; the result
    lies inside the raster: [0 <= x], [0 <= y], [x + w <= W], [y + h <= H]. *)
Theorem clampCanvasBox_contained (c : Canvas) (box : Box.t float) :
  (0 <= canvas_width c)%Z -> (0 <= canvas_height c)%Z ->
  numeric box ->
  exists x y w h : Z,
    clampCanvasBox c box = Box.mk (JInt x) (JInt y) (JInt w) (JInt h)
    /\ x = clamp_to (canvas_width c) (Math_round (Box.x box))
    /\ y = clamp_to (canvas_height c) (Math_round (Box.y box))
    /\ w = clamp_to (canvas_width c - x) (Math_round (Box.w box))
    /\ h = clamp_to (canvas_height c - y) (Math_round (Box.h box))
    /\ (0 <= x <= canvas_width c)%Z /\ (0 <= y <= canvas_height c)%Z
    /\ (0 <= w <= canvas_width c - x)%Z /\ (0 <= h <= canvas_height c - y)%Z
    /\ (x + w <= canvas_width c)%Z /\ (y + h <= canvas_height c)%Z.
Proof.
  intros HW HH (Nx & Ny & Nw & Nh).
  apply Math_round_numeric in Nx, Ny, Nw, Nh.
  destruct (clamp_coordinate _ _ HW Nx) as [Ex Bx].
  destruct (clamp_coordinate _ _ HH Ny) as [Ey By].
  set (x := clamp_to (canvas_width c) (Math_round (Box.x box))) in *.
  set (y := clamp_to (canvas_height c) (Math_round (Box.y box))) in *.
  assert (HW' : (0 <= canvas_width c - x)%Z) by lia.
  assert (HH' : (0 <= canvas_height c - y)%Z) by lia.
  destruct (clamp_coordinate _ _ HW' Nw) as [Ew Bw].
  destruct (clamp_coordinate _ _ HH' Nh) as [Eh Bh].
  exists x, y, (clamp_to (canvas_width c - x) (Math_round (Box.w box))),
    (clamp_to (canvas_height c - y) (Math_round (Box.h box))).
  split.
  - unfold clampCanvasBox. rewrite Ex, Ey. cbn [jsub]. rewrite Ew, Eh.
    reflexivity.
  - repeat split; try reflexivity; lia.
Qed.

Lemma clampCanvasBox_contained_witness :
  let box := (Box.mk 790.4 (-3) 50 1000.5)%float in
  (0 <= canvas_width sample_canvas)%Z /\ (0 <= canvas_height sample_canvas)%Z
  /\ numeric box
  /\ clampCanvasBox sample_canvas box
     = Box.mk (JInt 790) (JInt 0) (JInt 10) (JInt 600)
  /\ exists x y w h : Z,
       clampCanvasBox sample_canvas box
       = Box.mk (JInt x) (JInt y) (JInt w) (JInt h)
       /\ (0 <= x)%Z /\ (0 <= y)%Z
       /\ (x + w <= 800)%Z /\ (y + h <= 600)%Z.
Proof.
  intros box.
  assert (HW : (0 <= canvas_width sample_canvas)%Z) by (cbn; lia).
  assert (HH : (0 <= canvas_height sample_canvas)%Z) by (cbn; lia).
  assert (HN : numeric box) by (repeat split; reflexivity).
  split; [exact HW|]. split; [exact HH|]. split; [exact HN|].
  split; [reflexivity|].
  destruct (clampCanvasBox_contained sample_canvas box HW HH HN)
    as (x & y & w & h & E & _ & _ & _ & _ & Bx & By & _ & _ & Sw & Sh).
  exists x, y, w, h. repeat split; try assumption; apply Bx || apply By.
Defined.

(** A field that is NaN stays NaN: such a box is outside the theorem. *)
Example clampCanvasBox_nan :
  clampCanvasBox sample_canvas (Box.mk nan 0 10 10)%float
  = Box.mk JNaN (JInt 0) JNaN (JInt 10).
Proof. reflexivity. Qed.

(** * The point stores *)

(** The engine writes the report and nothing else. *)
Lemma computeResults_frame (s : State) :
  computeResults s = set_report (report (computeResults s)) s.
Proof.
  unfold computeResults.
  destruct (affine (marks s)); [|destruct s; reflexivity].
  destruct (List.length (monthPts (marks s)) <? 12)%nat;
    [destruct s; reflexivity|].
  destruct (for_loop 12 0 _ _) as [[t rows] fin]. reflexivity.
Qed.

Lemma computeResults_marks (s : State) : marks (computeResults s) = marks s.
Proof. rewrite computeResults_frame. reflexivity. Qed.


(** The four ways a click can end. *)
Lemma canvas_click_cases (e : Pointer) (s : State) :
  let p := clicked s e in
  (* swallowed by crop mode, or both stores closed *)
  canvas_click e s = (s, [])
  /\ (reaches_stores s ->
      (2 <= List.length (calib (marks s)))%nat
      /\ (affine (marks s) = None
          \/ (12 <= List.length (monthPts (marks s)))%nat))
  \/ (* a calibration point *)
  (reaches_stores s /\ (List.length (calib (marks s)) < 2)%nat
   /\ canvas_click e s
      = (set_marks {| calib := calib (marks s) ++ [p];
                      monthPts := monthPts (marks s);
                      affine := affine (marks s);
                      mode := mode (marks s);
                      startIdx := startIdx (marks s) |} s,
         [drawPoint (fst p) (snd p) "blue"]))
  \/ (* a month point, with or without the engine *)
  (reaches_stores s /\ (2 <= List.length (calib (marks s)))%nat
   /\ affine (marks s) <> None
   /\ (List.length (monthPts (marks s)) < 12)%nat
   /\ exists s1,
        s1 = set_marks {| calib := calib (marks s);
                          monthPts := monthPts (marks s) ++ [p];
                          affine := affine (marks s);
                          mode := mode (marks s);
                          startIdx := startIdx (marks s) |} s
        /\ ((List.length (monthPts (marks s)) = 11%nat
             /\ canvas_click e s
                = (computeResults s1,
                   [drawPoint (fst p) (snd p) "red"; run_computeResults]))
            \/ (List.length (monthPts (marks s)) <> 11%nat
                /\ canvas_click e s
                   = (s1, [drawPoint (fst p) (snd p) "red"])))).
Proof.
  intros p. unfold canvas_click, reaches_stores.
  destruct (isCropping (crop s)
            && (is_some (cropStart (crop s))
                || String.eqb (style_display (cropRect s)) "block")) eqn:G.
  { left. split; [reflexivity|discriminate]. }
  destruct (Nat.ltb_spec (List.length (calib (marks s))) 2) as [Hc|Hc].
  { right. left. repeat split; assumption. }
  destruct (affine (marks s)) as [a|] eqn:Ha; cbn [is_some andb].
  2:{ left. split; [reflexivity|]. intros _. split; [assumption|now left]. }
  destruct (Nat.ltb_spec (List.length (monthPts (marks s))) 12) as [Hm|Hm].
  2:{ left. split; [reflexivity|]. intros _. split; [assumption|now right]. }
  right. right. split; [reflexivity|]. split; [assumption|].
  split; [discriminate|]. split; [assumption|].
  eexists. split; [reflexivity|].
  cbn [marks set_marks monthPts]. rewrite length_app. cbn [List.length].
  destruct (Nat.eqb_spec (List.length (monthPts (marks s)) + 1) 12) as [E|E].
  - left. split; [lia|reflexivity].
  - right. split; [lia|reflexivity].
Qed.



(** * Apply crop *)

(** A clamped extent that is [<= 0] is 0. *)
Lemma clamped_nonpositive (hi r : jsint) :
  jle (Math_max (JInt 0) (Math_min hi r)) (JInt 0) = true ->
  Math_max (JInt 0) (Math_min hi r) = JInt 0.
Proof.
  destruct (Math_min hi r) as [|[|]|q]; cbn; try discriminate;
    try reflexivity.
  destruct (Z.leb_spec 0 q) as [Hq|Hq]; cbn; [|reflexivity].
  intros Hle. apply Z.leb_le in Hle. f_equal. lia.
Qed.

(** Zero times any factor rounds to 0 or is NaN, hence is never a positive
    number of pixels. *)
Lemma zero_extent_maps_to_zero (k : float) (z : Z) :
  Math_round (to_float (JInt 0) * k) = JInt z -> z = 0%Z.
Proof.
  unfold Math_round. rewrite mul_spec.
  change (Prim2SF (to_float (JInt 0))) with (S754_zero false).
  destruct (Prim2SF k) as [s|s| |s m e]; cbn; congruence.
Qed.

Lemma empty_width_stays_empty (s : State) (box : Box.t float) (z : Z) :
  jle (Box.w (clampCanvasBox (canvas s) box)) (JInt 0) = true ->
  Box.w (to_original s (clampCanvasBox (canvas s) box)) = JInt z ->
  z = 0%Z.
Proof.
  unfold to_original, clampCanvasBox. cbn [Box.w Box.x Box.y Box.h].
  intros H. apply clamped_nonpositive in H. rewrite H.
  apply zero_extent_maps_to_zero.
Qed.

Lemma empty_height_stays_empty (s : State) (box : Box.t float) (z : Z) :
  jle (Box.h (clampCanvasBox (canvas s) box)) (JInt 0) = true ->
  Box.h (to_original s (clampCanvasBox (canvas s) box)) = JInt z ->
  z = 0%Z.
Proof.
  unfold to_original, clampCanvasBox. cbn [Box.w Box.x Box.y Box.h].
  intros H. apply clamped_nonpositive in H. rewrite H.
  apply zero_extent_maps_to_zero.
Qed.

(** The load queued by a successful click is the one [apply_crop] completes. *)
Lemma image_loaded_last (s : State) (p : Pending) :
  image_loaded (List.length (loading s)) (set_loading (loading s ++ [p]) s)
  = newImage_onload p s.
Proof.
  unfold image_loaded. cbn [loading set_loading].
  rewrite nth_error_app2, Nat.sub_diag by lia. cbn [nth_error].
  rewrite firstn_app, Nat.sub_diag, firstn_all, firstn_O, app_nil_r.
  rewrite skipn_all2 by (rewrite length_app; cbn; lia).
  rewrite app_nil_r. destruct s; reflexivity.
Qed.

Lemma image_loaded_none (s : State) :
  image_loaded (List.length (loading s)) s = s.
Proof.
  unfold image_loaded.
  destruct (nth_error (loading s) (List.length (loading s))) eqn:E;
    [|reflexivity].
  assert (nth_error (loading s) (List.length (loading s)) = None)
    by (apply nth_error_None; lia).
  congruence.
Qed.

(** C6. With an image loaded and the crop rectangle shown, applying the crop
    fails with EmptyCrop and changes nothing when the box mapped to
    original-image pixels has width or height [<= 0]; when the mapped width
    and height are positive [sw] and [sh], the canvas raster becomes
    [sw x sh], the cropped region becomes both the original and the displayed
    image, the two point stores and the map are cleared, and crop mode is
    off. *)
Theorem apply_crop_outcome (s : State) (o : Image) :
  origImg (pic s) = Some o ->
  String.eqb (style_display (cropRect s)) "none" = false ->
  let src := to_original s (clampCanvasBox (canvas s) (cropBox (crop s))) in
  (jle (Box.w src) (JInt 0) = true \/ jle (Box.h src) (JInt 0) = true ->
   EmptyCrop (snd (apply_crop s)) /\ fst (apply_crop s) = s)
  /\ (forall sw sh : Z,
         Box.w src = JInt sw -> Box.h src = JInt sh ->
         (0 < sw)%Z -> (0 < sh)%Z ->
         let s' := fst (apply_crop s) in
         let cropped := Region o (Box.x src) (Box.y src) (JInt sw) (JInt sh) in
         snd (apply_crop s) = []
         /\ canvas s' = {| canvas_width := sw; canvas_height := sh |}
         /\ origImg (pic s') = Some cropped /\ img (pic s') = Some cropped
         /\ origW (pic s') = sw /\ origH (pic s') = sh
         /\ calib (marks s') = [] /\ monthPts (marks s') = []
         /\ affine (marks s') = None
         /\ isCropping (crop s') = false
         /\ style_display (cropRect s') = "none"%string).
Proof.
  intros Ho Hd src. unfold apply_crop, applyCropBtn_onclick.
  rewrite Ho, Hd. fold src.
  set (cb := clampCanvasBox (canvas s) (cropBox (crop s))) in *.
  destruct (jle (Box.w cb) (JInt 0) || jle (Box.h cb) (JInt 0)) eqn:Hcb.
  - (* the clamped box is empty *)
    split.
    + intros _. cbn [fst snd]. rewrite image_loaded_none.
      split; [now left|reflexivity].
    + intros sw sh Ew Eh Hw Hh. exfalso.
      apply orb_true_iff in Hcb. destruct Hcb as [H|H].
      * pose proof (empty_width_stays_empty s _ sw H Ew). lia.
      * pose proof (empty_height_stays_empty s _ sh H Eh). lia.
  - destruct (jle (Box.w src) (JInt 0) || jle (Box.h src) (JInt 0)) eqn:Hsrc.
    + (* the mapped box is empty *)
      split.
      * intros _. cbn [fst snd]. rewrite image_loaded_none.
        split; [now right|reflexivity].
      * intros sw sh Ew Eh Hw Hh. exfalso.
        rewrite Ew, Eh in Hsrc. cbn in Hsrc.
        apply orb_true_iff in Hsrc. destruct Hsrc as [H|H];
          apply Z.leb_le in H; lia.
    + split.
      * intros H. apply orb_false_iff in Hsrc. destruct H as [H|H];
          rewrite H in Hsrc; destruct Hsrc; discriminate.
      * intros sw sh Ew Eh Hw Hh. cbn [fst snd].
        rewrite image_loaded_last. rewrite Ew, Eh.
        unfold newImage_onload.
        cbn [canvas pic marks crop cropRect newImage p_sw p_sh origImg img
             origW origH calib monthPts affine isCropping style_display
             clear_marks show naturalWidth naturalHeight width height
             to_ulong].
        destruct (Z.leb_spec 0 sw); [|lia]. destruct (Z.leb_spec 0 sh); [|lia].
        unfold js_or.
        destruct (Z.eqb_spec sw 0); [lia|]. destruct (Z.eqb_spec sh 0); [lia|].
        repeat split; reflexivity.
Qed.

Lemma apply_crop_outcome_witness :
  let s := sample_cropping in
  let o := Decoded "chart" 1600 1200 in
  origImg (pic s) = Some o
  /\ String.eqb (style_display (cropRect s)) "none" = false
  /\ to_original s (clampCanvasBox (canvas s) (cropBox (crop s)))
     = Box.mk (JInt 200) (JInt 100) (JInt 800) (JInt 600)
  /\ snd (apply_crop s) = []
  /\ canvas (fst (apply_crop s))
     = {| canvas_width := 800; canvas_height := 600 |}
  /\ origImg (pic (fst (apply_crop s)))
     = Some (Region o (JInt 200) (JInt 100) (JInt 800) (JInt 600))
  /\ calib (marks (fst (apply_crop s))) = []
  /\ monthPts (marks (fst (apply_crop s))) = []
  /\ affine (marks (fst (apply_crop s))) = None
  /\ isCropping (crop (fst (apply_crop s))) = false.
Proof.
  intros s o.
  assert (Ho : origImg (pic s) = Some o) by reflexivity.
  assert (Hd : String.eqb (style_display (cropRect s)) "none" = false)
    by reflexivity.
  assert (Hs : to_original s (clampCanvasBox (canvas s) (cropBox (crop s)))
               = Box.mk (JInt 200) (JInt 100) (JInt 800) (JInt 600))
    by reflexivity.
  destruct (apply_crop_outcome s o Ho Hd) as [_ Hok].
  destruct (Hok 800%Z 600%Z) as (H1 & H2 & H3 & _ & _ & _ & H4 & H5 & H6 & H7 & _);
    try (rewrite Hs; reflexivity); try lia.
  rewrite Hs in H3. cbn [Box.x Box.y] in H3.
  repeat (split; [assumption|]). assumption.
Defined.

(** A box of no extent: the click answers with a message and nothing moves. *)
Example apply_crop_empty :
  apply_crop sample_empty_crop
  = (sample_empty_crop, [alert "Select a valid crop area first."]).
Proof. reflexivity. Qed.

(** * The page as a whole *)

(** Case analysis over the tests a handler makes. *)
Ltac split_tests s :=
  repeat match goal with
    | |- context [if ?c then _ else _] => destruct c
    | |- context [dragOffset (crop s)] =>
        destruct (dragOffset (crop s))
    | |- context [cropStart (crop s)] =>
        destruct (cropStart (crop s))
    end.

(** The click on "apply" can only start a load. *)
Lemma applyCropBtn_frame (s : State) :
  exists l, fst (applyCropBtn_onclick s) = set_loading l s.
Proof.
  unfold applyCropBtn_onclick.
  destruct (origImg (pic s)); split_tests s; cbn [fst];
    try (exists (loading s); destruct s; reflexivity).
  eexists. reflexivity.
Qed.





Lemma reachable_run (evs : list Event) (s : State) :
  reachable s -> reachable (run evs s).
Proof.
  revert s. induction evs as [|ev evs IH]; intros s H; cbn; [exact H|].
  apply IH. now apply reach_step.
Qed.




(** * Mode and start month are those of the last calibration *)

Lemma computeResults_inputs (i : Inputs) (s : State) :
  computeResults (set_inputs i s) = set_inputs i (computeResults s).
Proof.
  unfold computeResults. cbn [marks set_inputs].
  destruct (affine (marks s)); [|reflexivity].
  destruct (List.length (monthPts (marks s)) <? 12)%nat; [reflexivity|].
  destruct (for_loop 12 0 _ _) as [[t rows] fin]. reflexivity.
Qed.

(** No handler but "Set calibration" reads the form controls. *)
Lemma after_inputs (ev : Event) (i : Inputs) (s : State) :
  is_SetCalib ev = false ->
  exists i', after ev (set_inputs i s) = set_inputs i' (after ev s).
Proof.
  destruct ev; try discriminate; intros _; unfold after, step; cbn [fst];
    try (exists i; reflexivity).
  - exists i. unfold undoBtn_onclick. cbn [marks set_inputs].
    split_tests s; reflexivity.
  - exists i. unfold canvas_click.
    cbn [marks set_inputs crop cropRect canvas set_marks monthPts].
    split_tests s; cbn [fst]; try reflexivity.
    rewrite <- computeResults_inputs. reflexivity.
  - eexists. reflexivity.
  - eexists. reflexivity.
  - eexists. reflexivity.
  - eexists. reflexivity.
  - exists i. unfold canvas_mousedown.
    cbn [marks set_inputs crop cropRect canvas].
    split_tests s; reflexivity.
  - exists i. unfold canvas_mousemove.
    cbn [marks set_inputs crop cropRect canvas].
    split_tests s; reflexivity.
  - exists i. unfold canvas_mouseup.
    cbn [marks set_inputs crop cropRect canvas].
    split_tests s; reflexivity.
  - exists i. unfold canvas_mouseleave.
    cbn [marks set_inputs crop cropRect canvas].
    split_tests s; reflexivity.
  - exists i. unfold applyCropBtn_onclick.
    cbn [pic marks set_inputs crop cropRect canvas].
    change (to_original (set_inputs i s)) with (to_original s).
    destruct (origImg (pic s)); split_tests s; reflexivity.
  - exists i. unfold image_loaded. cbn [loading set_inputs].
    destruct (nth_error (loading s) n); reflexivity.
Qed.

Lemma after_selection (ev : Event) (s : State) :
  is_selection ev = true -> exists i, after ev s = set_inputs i s.
Proof.
  destruct ev; try discriminate; intros _; eexists; reflexivity.
Qed.

Lemma set_inputs_twice (i j : Inputs) (s : State) :
  set_inputs i (set_inputs j s) = set_inputs i s.
Proof. reflexivity. Qed.

(** Running with the selection changes or without them ends in states that
    differ in the form controls at most. *)
Lemma run_without_selections (evs : list Event) :
  forallb (fun ev => negb (is_SetCalib ev)) evs = true ->
  forall (i : Inputs) (s : State),
  exists i',
    run evs (set_inputs i s)
    = set_inputs i' (run (filter (fun ev => negb (is_selection ev)) evs) s).
Proof.
  induction evs as [|ev evs IH]; intros Hn i s.
  - exists i. reflexivity.
  - cbn [forallb] in Hn. apply andb_prop in Hn. destruct Hn as [Hev Hn].
    apply negb_true_iff in Hev. cbn [run filter].
    destruct (is_selection ev) eqn:Hsel; cbn [negb].
    + destruct (after_selection ev (set_inputs i s) Hsel) as [j Ej].
      rewrite Ej, set_inputs_twice. apply (IH Hn).
    + destruct (after_inputs ev i s Hev) as [j Ej]. rewrite Ej.
      cbn [run]. apply (IH Hn).
Qed.

(** C10. A successful "Set calibration" stores the mode and the index of
    the start month selected at that moment, and the engine reads these
    stored values: along any sequence of events without another "Set
    calibration", changes of the two selections make no difference to the
    rows and the annual total (nor to the stores and the map). *)
Theorem selections_captured (s : State) (evs : list Event) :
  (snd (setCalibBtn_onclick s) = [] ->
   mode (marks (fst (setCalibBtn_onclick s))) = Some (modeEl_value (inputs s))
   /\ startIdx (marks (fst (setCalibBtn_onclick s)))
      = Some (indexOf monthNames (startEl_value (inputs s))))
  /\ (forallb (fun ev => negb (is_SetCalib ev)) evs = true ->
      report (run evs s)
      = report (run (filter (fun ev => negb (is_selection ev)) evs) s)
      /\ marks (run evs s)
         = marks (run (filter (fun ev => negb (is_selection ev)) evs) s)).
Proof.
  split.
  - unfold setCalibBtn_onclick.
    destruct (calib (marks s)) as [|[xb yb] [|[xt yt] rest]];
      try discriminate.
    destruct (is_nan (yminEl_value (inputs s))
              || is_nan (ymaxEl_value (inputs s))); try discriminate.
    destruct (abs (yb - yt) <? 1e-6)%float; try discriminate.
    intros _. split; reflexivity.
  - intros Hn.
    destruct (run_without_selections evs Hn (inputs s) s) as [i' E].
    replace (set_inputs (inputs s) s) with s in E by (destruct s; reflexivity).
    rewrite E. split; reflexivity.
Qed.

Lemma selections_captured_witness :
  let s := run (two_clicks 500 100) (sample_page 0 1000) in
  let s1 := fst (setCalibBtn_onclick s) in
  snd (setCalibBtn_onclick s) = []
  /\ forallb (fun ev => negb (is_SetCalib ev)) sample_reselecting = true
  /\ mode (marks s1) = Some "Daily average"%string
  /\ startIdx (marks s1) = Some 2%Z
  /\ modeEl_value (inputs (run sample_reselecting s1)) = "Total"%string
  /\ startEl_value (inputs (run sample_reselecting s1)) = "Jan"%string
  /\ report (run sample_reselecting s1) = report sample_twelve.
Proof.
  intros s s1.
  assert (H0 : snd (setCalibBtn_onclick s) = [])
    by (vm_compute; reflexivity).
  assert (H1 : forallb (fun ev => negb (is_SetCalib ev)) sample_reselecting
               = true) by (vm_compute; reflexivity).
  destruct (selections_captured s sample_reselecting) as [Hcap _].
  destruct (selections_captured s1 sample_reselecting) as [_ Hrun].
  destruct (Hcap H0) as [Hm Hs]. destruct (Hrun H1) as [Hrep _].
  split; [exact H0|]. split; [exact H1|]. split; [exact Hm|].
  split; [exact Hs|]. split; [vm_compute; reflexivity|].
  split; [vm_compute; reflexivity|].
  rewrite Hrep. vm_compute. reflexivity.
Defined.

(** * The sample session, run *)

(** The table after the twelfth click: calibrated 0..1000 between y = 500
    and y = 100, mode "Daily average", start month "Mar". *)
Example sample_report :
  report sample_twelve
  = {| resultsTable :=
         Some [ {| monthName := Some "Mar"; axisVal := 500; finalVal := 15500 |};
                {| monthName := Some "Apr"; axisVal := 450; finalVal := 13500 |};
                {| monthName := Some "May"; axisVal := 400; finalVal := 12400 |};
                {| monthName := Some "Jun"; axisVal := 350; finalVal := 10500 |};
                {| monthName := Some "Jul"; axisVal := 300; finalVal := 9300 |};
                {| monthName := Some "Aug"; axisVal := 250; finalVal := 7750 |};
                {| monthName := Some "Sep"; axisVal := 200; finalVal := 6000 |};
                {| monthName := Some "Oct"; axisVal := 150; finalVal := 4650 |};
                {| monthName := Some "Nov"; axisVal := 100; finalVal := 3000 |};
                {| monthName := Some "Dec"; axisVal := 50; finalVal := 1550 |};
                {| monthName := Some "Jan"; axisVal := 750; finalVal := 23250 |};
                {| monthName := Some "Feb"; axisVal := 1000; finalVal := 28000 |} ];
       annualLabel := Some 135400 |}%float%string.
Proof. vm_compute. reflexivity. Qed.

(** Before the twelfth click nothing has been computed. *)
Example sample_eleven_report : report sample_eleven = no_report.
Proof. vm_compute. reflexivity. Qed.

(** Undo removes the last month point and only that. *)
Example undo_is_pop :
  monthPts (marks (after Undo sample_eleven))
  = firstn 10 (monthPts (marks sample_eleven))
  /\ after Undo (sample_page 0 1000) = sample_page 0 1000.
Proof. split; vm_compute; reflexivity. Qed.

(** A new upload over a finished session clears points, map and table. *)
Example upload_clears :
  let s := after (Upload (Decoded "other" 640 480)) sample_twelve in
  marks s = clear_marks (marks sample_twelve) /\ report s = no_report.
Proof. split; vm_compute; reflexivity. Qed.

(** While the crop rectangle is shown, clicks do not reach the stores. *)
Example click_in_crop_mode :
  canvas_click (at_xy 10 10) (after CropToggle sample_calibrated)
  = (after CropToggle sample_calibrated, []).
Proof. vm_compute. reflexivity. Qed.

(** * Coordinates and crop geometry, continued *)

(** The clamped box is a box of integers inside the raster. *)
Lemma clampCanvasBox_ints (c : Canvas) (box : Box.t float) :
  (0 <= canvas_width c)%Z -> (0 <= canvas_height c)%Z -> numeric box ->
  exists x y w h : Z,
    clampCanvasBox c box = int_box x y w h
    /\ (0 <= x <= canvas_width c)%Z /\ (0 <= y <= canvas_height c)%Z
    /\ (0 <= w <= canvas_width c - x)%Z /\ (0 <= h <= canvas_height c - y)%Z.
Proof.
  intros HW HH (Nx & Ny & Nw & Nh).
  apply Math_round_numeric in Nx, Ny, Nw, Nh.
  destruct (clamp_coordinate _ _ HW Nx) as [Ex Bx].
  destruct (clamp_coordinate _ _ HH Ny) as [Ey By].
  set (x := clamp_to (canvas_width c) (Math_round (Box.x box))) in *.
  set (y := clamp_to (canvas_height c) (Math_round (Box.y box))) in *.
  assert (HW' : (0 <= canvas_width c - x)%Z) by lia.
  assert (HH' : (0 <= canvas_height c - y)%Z) by lia.
  destruct (clamp_coordinate _ _ HW' Nw) as [Ew Bw].
  destruct (clamp_coordinate _ _ HH' Nh) as [Eh Bh].
  exists x, y, (clamp_to (canvas_width c - x) (Math_round (Box.w box))),
    (clamp_to (canvas_height c - y) (Math_round (Box.h box))).
  split; [|repeat split; lia].
  unfold clampCanvasBox, int_box. rewrite Ex, Ey. cbn [jsub].
  rewrite Ew, Eh. reflexivity.
Qed.

(** A box of integers inside the raster is left as it is. *)
Lemma clampCanvasBox_fixed (c : Canvas) (x y w h : Z) :
  (canvas_width c < 2 ^ 53)%Z -> (canvas_height c < 2 ^ 53)%Z ->
  (0 <= x <= canvas_width c)%Z -> (0 <= y <= canvas_height c)%Z ->
  (0 <= w <= canvas_width c - x)%Z -> (0 <= h <= canvas_height c - y)%Z ->
  clampCanvasBox c (Box.map to_float (int_box x y w h)) = int_box x y w h.
Proof.
  intros LW LH Hx Hy Hw Hh.
  unfold clampCanvasBox, int_box, Box.map.
  cbn [Box.x Box.y Box.w Box.h to_float].
  rewrite !IntegerDoubles.Math_round_of_Z by lia.
  assert (Cx : Math_max (JInt 0) (Math_min (JInt (canvas_width c)) (JInt x))
               = JInt x).
  { destruct (clamp_coordinate (canvas_width c) (JInt x)) as [E _];
      [lia|discriminate|]. rewrite E. cbn [clamp_to]. f_equal. lia. }
  assert (Cy : Math_max (JInt 0) (Math_min (JInt (canvas_height c)) (JInt y))
               = JInt y).
  { destruct (clamp_coordinate (canvas_height c) (JInt y)) as [E _];
      [lia|discriminate|]. rewrite E. cbn [clamp_to]. f_equal. lia. }
  rewrite Cx, Cy. cbn [jsub].
  destruct (clamp_coordinate (canvas_width c - x) (JInt w)) as [Ew _];
    [lia|discriminate|].
  destruct (clamp_coordinate (canvas_height c - y) (JInt h)) as [Eh _];
    [lia|discriminate|].
  rewrite Ew, Eh. cbn [clamp_to]. repeat f_equal; lia.
Qed.

(** X1.  Clamping twice is clamping once: on a canvas of at most 2^53 - 1 pixels
    each way, the clamped form of any box of numbers is a fixed point of
    [clampCanvasBox]. *)
Theorem clampCanvasBox_idempotent (c : Canvas) (box : Box.t float) :
  (0 <= canvas_width c < 2 ^ 53)%Z -> (0 <= canvas_height c < 2 ^ 53)%Z ->
  numeric box ->
  clampCanvasBox c (Box.map to_float (clampCanvasBox c box))
  = clampCanvasBox c box.
Proof.
  intros [HW LW] [HH LH] N.
  destruct (clampCanvasBox_ints c box HW HH N)
    as (x & y & w & h & E & Bx & By & Bw & Bh).
  rewrite E. now apply clampCanvasBox_fixed.
Qed.

Lemma clampCanvasBox_idempotent_witness :
  let box := (Box.mk 790.4 (-3) 50 1000.5)%float in
  (0 <= canvas_width sample_canvas < 2 ^ 53)%Z
  /\ (0 <= canvas_height sample_canvas < 2 ^ 53)%Z
  /\ numeric box
  /\ clampCanvasBox sample_canvas
       (Box.map to_float (clampCanvasBox sample_canvas box))
     = int_box 790 0 10 600.
Proof.
  intros box.
  assert (HW : (0 <= canvas_width sample_canvas < 2 ^ 53)%Z)
    by (vm_compute; split; [discriminate|reflexivity]).
  assert (HH : (0 <= canvas_height sample_canvas < 2 ^ 53)%Z)
    by (vm_compute; split; [discriminate|reflexivity]).
  assert (HN : numeric box) by (repeat split; reflexivity).
  split; [exact HW|]. split; [exact HH|]. split; [exact HN|].
  rewrite (clampCanvasBox_idempotent sample_canvas box HW HH HN).
  vm_compute. reflexivity.
Defined.

(** X2.  A canvas shown at its own size: raster coordinates are the client
    coordinates less the canvas's corner, with no rescaling. *)
Theorem unscaled_canvas_point (c : Canvas) (e : Pointer) :
  (0 < canvas_width c < 2 ^ 53)%Z -> (0 < canvas_height c < 2 ^ 53)%Z ->
  rect_width (rect e) = of_Z (canvas_width c) ->
  rect_height (rect e) = of_Z (canvas_height c) ->
  let p := getCanvasPointFromClient c e in
  cx p = (clientX e - rect_left (rect e))%float
  /\ cy p = (clientY e - rect_top (rect e))%float
  /\ scaleX p = 1%float /\ scaleY p = 1%float.
Proof.
  intros HW HH EW EH. unfold getCanvasPointFromClient.
  cbn [cx cy scaleX scaleY]. rewrite EW, EH.
  rewrite !IntegerDoubles.of_Z_div_self by assumption.
  rewrite !IntegerDoubles.mul_one. repeat split.
Qed.

Lemma unscaled_canvas_point_witness :
  let e := at_xy 123.5 77 in
  (0 < canvas_width sample_canvas < 2 ^ 53)%Z
  /\ (0 < canvas_height sample_canvas < 2 ^ 53)%Z
  /\ rect_width (rect e) = of_Z (canvas_width sample_canvas)
  /\ rect_height (rect e) = of_Z (canvas_height sample_canvas)
  /\ cx (getCanvasPointFromClient sample_canvas e) = (123.5 - 0)%float
  /\ cy (getCanvasPointFromClient sample_canvas e) = (77 - 0)%float.
Proof.
  intros e.
  assert (HW : (0 < canvas_width sample_canvas < 2 ^ 53)%Z)
    by (vm_compute; split; reflexivity).
  assert (HH : (0 < canvas_height sample_canvas < 2 ^ 53)%Z)
    by (vm_compute; split; reflexivity).
  assert (EW : rect_width (rect e) = of_Z (canvas_width sample_canvas))
    by (vm_compute; reflexivity).
  assert (EH : rect_height (rect e) = of_Z (canvas_height sample_canvas))
    by (vm_compute; reflexivity).
  split; [exact HW|]. split; [exact HH|]. split; [exact EW|].
  split; [exact EH|].
  destruct (unscaled_canvas_point sample_canvas e HW HH EW EH)
    as (Hx & Hy & _ & _).
  split; [exact Hx|exact Hy].
Defined.

(** What a click on "apply" followed by the load does when the mapped box
    has positive extent. *)
Lemma apply_crop_success (s : State) (o : Image) (sw sh : Z) :
  origImg (pic s) = Some o ->
  String.eqb (style_display (cropRect s)) "none" = false ->
  let src := to_original s (clampCanvasBox (canvas s) (cropBox (crop s))) in
  Box.w src = JInt sw -> Box.h src = JInt sh -> (0 < sw)%Z -> (0 < sh)%Z ->
  apply_crop s
  = (newImage_onload
       {| newImage := Region o (Box.x src) (Box.y src) (JInt sw) (JInt sh);
          p_sw := JInt sw; p_sh := JInt sh |} s, []).
Proof.
  intros Ho Hd src Ew Eh Hw Hh. unfold apply_crop, applyCropBtn_onclick.
  rewrite Ho, Hd. fold src.
  destruct (jle (Box.w (clampCanvasBox (canvas s) (cropBox (crop s)))) (JInt 0)
            || jle (Box.h (clampCanvasBox (canvas s) (cropBox (crop s))))
                 (JInt 0)) eqn:Hcb.
  { exfalso. apply orb_true_iff in Hcb. destruct Hcb as [H|H].
    - pose proof (empty_width_stays_empty s _ sw H Ew). lia.
    - pose proof (empty_height_stays_empty s _ sh H Eh). lia. }
  rewrite Ew, Eh. cbn [jle].
  destruct (Z.leb_spec sw 0); [lia|]. destruct (Z.leb_spec sh 0); [lia|].
  cbn [orb]. rewrite image_loaded_last. reflexivity.
Qed.

(** With the image and the canvas of the same size, a box of canvas pixels
    is the same box of image pixels. *)
Lemma to_original_same_size (s : State) (x y w h : Z) :
  origW (pic s) = canvas_width (canvas s) ->
  origH (pic s) = canvas_height (canvas s) ->
  (0 < canvas_width (canvas s) < 2 ^ 53)%Z ->
  (0 < canvas_height (canvas s) < 2 ^ 53)%Z ->
  (0 <= x < 2 ^ 53)%Z -> (0 <= y < 2 ^ 53)%Z ->
  (0 <= w < 2 ^ 53)%Z -> (0 <= h < 2 ^ 53)%Z ->
  to_original s (int_box x y w h) = int_box x y w h.
Proof.
  intros EW EH HW HH Hx Hy Hw Hh. unfold to_original, int_box.
  cbn [Box.x Box.y Box.w Box.h to_float]. rewrite EW, EH.
  rewrite !IntegerDoubles.of_Z_div_self by assumption.
  rewrite !IntegerDoubles.mul_one.
  rewrite !IntegerDoubles.Math_round_of_Z by assumption. reflexivity.
Qed.

(** X3.  Once a crop of [sw x sh] original pixels has been applied, the canvas
    raster and the new original have the same size, so a further crop box is
    taken over pixel for pixel: mapping it to original-image space changes
    nothing. *)
Theorem crop_again_unscaled (s : State) (o : Image) (sw sh : Z) :
  origImg (pic s) = Some o ->
  String.eqb (style_display (cropRect s)) "none" = false ->
  let src := to_original s (clampCanvasBox (canvas s) (cropBox (crop s))) in
  Box.w src = JInt sw -> Box.h src = JInt sh ->
  (0 < sw < 2 ^ 53)%Z -> (0 < sh < 2 ^ 53)%Z ->
  let s' := fst (apply_crop s) in
  origW (pic s') = canvas_width (canvas s')
  /\ origH (pic s') = canvas_height (canvas s')
  /\ forall x y w h : Z,
       (0 <= x < 2 ^ 53)%Z -> (0 <= y < 2 ^ 53)%Z ->
       (0 <= w < 2 ^ 53)%Z -> (0 <= h < 2 ^ 53)%Z ->
       to_original s' (int_box x y w h) = int_box x y w h.
Proof.
  intros Ho Hd src Ew Eh [Hw Lw] [Hh Lh] s'. subst s'.
  rewrite (apply_crop_success s o sw sh Ho Hd Ew Eh Hw Hh). cbn [fst].
  set (s1 := newImage_onload _ s).
  assert (EW : origW (pic s1) = sw).
  { subst s1. cbn. destruct (Z.leb_spec 0 sw); [|lia]. unfold js_or.
    destruct (Z.eqb_spec sw 0); [lia|reflexivity]. }
  assert (EH : origH (pic s1) = sh).
  { subst s1. cbn. destruct (Z.leb_spec 0 sh); [|lia]. unfold js_or.
    destruct (Z.eqb_spec sh 0); [lia|reflexivity]. }
  assert (CW : canvas_width (canvas s1) = sw).
  { subst s1. cbn. destruct (Z.leb_spec 0 sw); [reflexivity|lia]. }
  assert (CH : canvas_height (canvas s1) = sh).
  { subst s1. cbn. destruct (Z.leb_spec 0 sh); [reflexivity|lia]. }
  split; [now rewrite EW, CW|]. split; [now rewrite EH, CH|].
  intros x y w h Hx Hy Hw' Hh'.
  apply to_original_same_size; try assumption;
    rewrite ?EW, ?EH, ?CW, ?CH; try reflexivity; lia.
Qed.

Lemma crop_again_unscaled_witness :
  let s := sample_cropping in
  let o := Decoded "chart" 1600 1200 in
  origImg (pic s) = Some o
  /\ String.eqb (style_display (cropRect s)) "none" = false
  /\ to_original s (clampCanvasBox (canvas s) (cropBox (crop s)))
     = int_box 200 100 800 600
  /\ to_original (fst (apply_crop s)) (int_box 10 20 300 400)
     = int_box 10 20 300 400.
Proof.
  intros s o.
  assert (Ho : origImg (pic s) = Some o) by (vm_compute; reflexivity).
  assert (Hd : String.eqb (style_display (cropRect s)) "none" = false)
    by (vm_compute; reflexivity).
  assert (Hs : to_original s (clampCanvasBox (canvas s) (cropBox (crop s)))
               = int_box 200 100 800 600) by (vm_compute; reflexivity).
  split; [exact Ho|]. split; [exact Hd|]. split; [exact Hs|].
  assert (Ew : Box.w (to_original s (clampCanvasBox (canvas s)
                                      (cropBox (crop s)))) = JInt 800)
    by (rewrite Hs; reflexivity).
  assert (Eh : Box.h (to_original s (clampCanvasBox (canvas s)
                                      (cropBox (crop s)))) = JInt 600)
    by (rewrite Hs; reflexivity).
  assert (Bw : (0 < 800 < 2 ^ 53)%Z) by (split; reflexivity).
  assert (Bh : (0 < 600 < 2 ^ 53)%Z) by (split; reflexivity).
  destruct (crop_again_unscaled s o 800 600 Ho Hd Ew Eh Bw Bh) as (_ & _ & H).
  assert (B1 : (0 <= 10 < 2 ^ 53)%Z) by (split; [discriminate|reflexivity]).
  assert (B2 : (0 <= 20 < 2 ^ 53)%Z) by (split; [discriminate|reflexivity]).
  assert (B3 : (0 <= 300 < 2 ^ 53)%Z) by (split; [discriminate|reflexivity]).
  assert (B4 : (0 <= 400 < 2 ^ 53)%Z) by (split; [discriminate|reflexivity]).
  exact (H 10%Z 20%Z 300%Z 400%Z B1 B2 B3 B4).
Defined.

(** The box of no extent is refused. *)
Lemma apply_empty_box (s : State) (o : Image) :
  origImg (pic s) = Some o ->
  String.eqb (style_display (cropRect s)) "none" = false ->
  cropBox (crop s) = (Box.mk 0 0 0 0)%float ->
  (0 <= canvas_width (canvas s))%Z ->
  apply_crop s = (s, [alert "Select a valid crop area first."]).
Proof.
  intros Ho Hd Hb HW. unfold apply_crop, applyCropBtn_onclick.
  rewrite Ho, Hd, Hb.
  assert (E : jle (Box.w (clampCanvasBox (canvas s) (Box.mk 0 0 0 0)%float))
                (JInt 0) = true).
  { unfold clampCanvasBox. cbn [Box.x Box.y Box.w Box.h].
    change (Math_round 0) with (JInt 0).
    destruct (clamp_coordinate (canvas_width (canvas s)) (JInt 0)) as [E _];
      [lia|discriminate|]. rewrite E. cbn [clamp_to jsub].
    destruct (clamp_coordinate
                (canvas_width (canvas s)
                 - Z.max 0 (Z.min (canvas_width (canvas s)) 0)) (JInt 0))
      as [E' _]; [lia|discriminate|].
    rewrite E'. cbn [clamp_to jle]. apply Z.leb_le. lia. }
  rewrite E. cbn [orb fst snd]. rewrite image_loaded_none. reflexivity.
Qed.

(** X4.  Crop mode switched on and "apply" pressed before any box is drawn: the
    box is the empty one, the click is answered with the empty-crop message
    and nothing changes. *)
Theorem apply_before_drawing (s : State) (o : Image) :
  origImg (pic s) = Some o ->
  isCropping (crop s) = false ->
  (0 <= canvas_width (canvas s))%Z ->
  apply_crop (cropToggle_onclick s)
  = (cropToggle_onclick s, [alert "Select a valid crop area first."]).
Proof.
  intros Ho Hc HW. apply (apply_empty_box _ o).
  - exact Ho.
  - unfold cropToggle_onclick. rewrite Hc. reflexivity.
  - reflexivity.
  - exact HW.
Qed.

Lemma apply_before_drawing_witness :
  let s := after (Upload (Decoded "chart" 1600 1200)) (sample_page 0 1000) in
  origImg (pic s) = Some (Decoded "chart" 1600 1200)
  /\ isCropping (crop s) = false
  /\ apply_crop (cropToggle_onclick s)
     = (cropToggle_onclick s, [alert "Select a valid crop area first."]).
Proof.
  intros s.
  assert (Ho : origImg (pic s) = Some (Decoded "chart" 1600 1200))
    by (vm_compute; reflexivity).
  assert (Hc : isCropping (crop s) = false) by (vm_compute; reflexivity).
  split; [exact Ho|]. split; [exact Hc|].
  apply (apply_before_drawing s _ Ho Hc); vm_compute; discriminate.
Defined.

(** * What the page keeps true *)

(** One turn of the loop, for any stored mode and start index. *)
Lemma computeResults_body_at (a : Affine) (pts : list Point)
    (md : option string) (st : option Z) (j : nat) (p : Point) (t : float)
    (rs : list Row) :
  nth_error pts j = Some p ->
  computeResults_body a pts md st (Z.of_nat j) (t, rs)
  = Some ((t + finalVal (row_at a md st j p))%float,
          rs ++ [row_at a md st j p]).
Proof.
  intros Hp. unfold computeResults_body, row_at.
  rewrite lookup_of_nat, Hp. destruct p as [x y]. reflexivity.
Qed.

Lemma skipn_cons_nth {A : Type} (l : list A) (j : nat) (p : A) :
  nth_error l j = Some p -> skipn j l = p :: skipn (S j) l.
Proof.
  revert l. induction j as [|j IH]; intros [|q l] H; try discriminate.
  - cbn in H. now injection H as ->.
  - cbn in H. cbn [skipn]. now apply IH.
Qed.

(** The loop never throws while there are points left to read. *)
Lemma for_loop_rows_from (a : Affine) (pts : list Point) (md : option string)
    (st : option Z) :
  forall (n j : nat) (t : float) (rs : list Row),
    (j + n <= List.length pts)%nat ->
    for_loop n (Z.of_nat j) (computeResults_body a pts md st) (t, rs)
    = (fold_left (fun t r => (t + finalVal r)%float)
         (rows_from a md st j (firstn n (skipn j pts))) t,
       rs ++ rows_from a md st j (firstn n (skipn j pts)),
       true).
Proof.
  induction n as [|n IH]; intros j t rs Hlen.
  - cbn. now rewrite app_nil_r.
  - destruct (nth_error pts j) as [p|] eqn:Hp.
    2:{ apply nth_error_None in Hp. lia. }
    rewrite (skipn_cons_nth pts j p Hp).
    cbn [for_loop firstn rows_from fold_left].
    rewrite (computeResults_body_at a pts md st j p t rs Hp).
    replace (Z.of_nat j + 1)%Z with (Z.of_nat (S j)) by lia.
    rewrite IH by lia. now rewrite <- app_assoc.
Qed.

Lemma rows_from_length a md st j pts :
  List.length (rows_from a md st j pts) = List.length pts.
Proof.
  revert j. induction pts as [|p pts IH]; intros j; cbn; [|rewrite IH];
    reflexivity.
Qed.

Lemma rows_from_nth a md st pts :
  forall j i p,
    nth_error pts i = Some p ->
    nth_error (rows_from a md st j pts) i = Some (row_at a md st (j + i) p).
Proof.
  induction pts as [|q pts IH]; intros j [|i] p H; try discriminate.
  - cbn in *. injection H as ->. now rewrite Nat.add_0_r.
  - cbn in *. rewrite (IH (S j) i p H). f_equal. f_equal. lia.
Qed.

(** The report the engine leaves over twelve points, whatever is stored as
    mode and start index. *)
Lemma computeResults_report_any (s : State) (a : Affine) :
  affine (marks s) = Some a ->
  List.length (monthPts (marks s)) = 12%nat ->
  report (computeResults s)
  = {| resultsTable :=
         Some (rows_from a (mode (marks s)) (startIdx (marks s)) 0
                 (monthPts (marks s)));
       annualLabel :=
         Some (sum_finalVal
                 (rows_from a (mode (marks s)) (startIdx (marks s)) 0
                    (monthPts (marks s)))) |}.
Proof.
  intros Ha Hl. unfold computeResults. rewrite Ha, Hl.
  cbn [Nat.ltb Nat.leb].
  pose proof (for_loop_rows_from a (monthPts (marks s)) (mode (marks s))
                (startIdx (marks s)) 12 0 0%float []) as L.
  cbn [Z.of_nat] in L. rewrite L by lia.
  cbn [skipn app]. rewrite <- Hl, firstn_all. reflexivity.
Qed.

Lemma indexOf_range (l : list string) (v : string) :
  (-1 <= indexOf l v < Z.of_nat (List.length l))%Z.
Proof.
  induction l as [|s l IH]; cbn [indexOf List.length]; [lia|].
  destruct (String.eqb s v); [lia|].
  destruct (Z.ltb_spec (indexOf l v) 0); lia.
Qed.

(** [indexOf] finds what is in the list, at the place it reports. *)
Lemma indexOf_found (l : list string) (v : string) :
  In v l ->
  (0 <= indexOf l v)%Z /\ nth_error l (Z.to_nat (indexOf l v)) = Some v.
Proof.
  induction l as [|s l IH]; intros H; [destruct H|].
  cbn [indexOf]. destruct (String.eqb_spec s v) as [->|N].
  - split; [lia|reflexivity].
  - destruct H as [H|H]; [congruence|].
    destruct (IH H) as [H0 Hn].
    destruct (Z.ltb_spec (indexOf l v) 0); [lia|].
    split; [lia|].
    replace (Z.to_nat (indexOf l v + 1)) with (S (Z.to_nat (indexOf l v)))
      by lia.
    exact Hn.
Qed.

Lemma indexOf_missing (l : list string) (v : string) :
  ~ In v l -> indexOf l v = (-1)%Z.
Proof.
  induction l as [|s l IH]; intros H; [reflexivity|].
  cbn [indexOf]. destruct (String.eqb_spec s v) as [->|N].
  - exfalso. apply H. now left.
  - rewrite IH by (intros Hin; apply H; now right). reflexivity.
Qed.

(** How one event can change the stores, the map and the report together. *)
Lemma after_marks_report (ev : Event) (s : State) :
  (marks (after ev s) = marks s /\ report (after ev s) = report s)
  \/ (marks (after ev s) = clear_marks (marks s)
      /\ report (after ev s) = no_report)
  \/ (exists p,
        (List.length (calib (marks s)) < 2)%nat
        /\ marks (after ev s)
           = {| calib := calib (marks s) ++ [p];
                monthPts := monthPts (marks s);
                affine := affine (marks s);
                mode := mode (marks s);
                startIdx := startIdx (marks s) |}
        /\ report (after ev s) = report s)
  \/ (exists p,
        affine (marks s) <> None
        /\ (List.length (monthPts (marks s)) < 12)%nat
        /\ marks (after ev s)
           = {| calib := calib (marks s);
                monthPts := monthPts (marks s) ++ [p];
                affine := affine (marks s);
                mode := mode (marks s);
                startIdx := startIdx (marks s) |}
        /\ ((List.length (monthPts (marks s)) <> 11%nat
             /\ report (after ev s) = report s)
            \/ (List.length (monthPts (marks s)) = 11%nat
                /\ report (after ev s)
                   = report (computeResults
                               (set_marks (marks (after ev s)) s)))))
  \/ (monthPts (marks s) <> []
      /\ marks (after ev s)
         = {| calib := calib (marks s);
              monthPts := removelast (monthPts (marks s));
              affine := affine (marks s);
              mode := mode (marks s);
              startIdx := startIdx (marks s) |}
      /\ report (after ev s) = report s)
  \/ (exists xb yb xt yt rest,
        calib (marks s) = (xb, yb) :: (xt, yt) :: rest
        /\ is_nan (vmin_of s) = false
        /\ (abs (yb - yt) <? 1e-6)%float = false
        /\ marks (after ev s)
           = {| calib := calib (marks s);
                monthPts := monthPts (marks s);
                affine := Some {| c_vmin := vmin_of s; c_yb := yb;
                                  c_pixelRange := (yb - yt)%float;
                                  c_dataRange := (vmax_of s - vmin_of s)%float |};
                mode := Some (modeEl_value (inputs s));
                startIdx :=
                  Some (indexOf monthNames (startEl_value (inputs s))) |}
        /\ report (after ev s) = report s).
Proof.
  destruct ev; unfold after, step; cbn [fst].
  - right. left. split; reflexivity.
  - right. left. split; reflexivity.
  - unfold undoBtn_onclick.
    destruct (monthPts (marks s)) as [|q l] eqn:E; cbn [List.length Nat.ltb Nat.leb].
    + left. split; reflexivity.
    + do 4 right. left. cbn [marks set_marks report].
      split; [discriminate|]. split; reflexivity.
  - destruct (canvas_click_cases e s)
      as [[E _]|[(_ & Hc & E)|(_ & _ & Ha & Hm & s1 & Es1 & [[H11 E]|[H11 E]])]];
      rewrite E; cbn [fst]; try rewrite computeResults_marks;
      try subst s1; cbn [marks set_marks report].
    + left. split; reflexivity.
    + right. right. left. eexists. split; [exact Hc|]. split; reflexivity.
    + do 3 right. left. eexists. split; [exact Ha|]. split; [exact Hm|].
      split; [reflexivity|]. right. split; [exact H11|reflexivity].
    + do 3 right. left. eexists. split; [exact Ha|]. split; [exact Hm|].
      split; [reflexivity|]. left. split; [exact H11|reflexivity].
  - unfold setCalibBtn_onclick, vmin_of, vmax_of.
    destruct (calib (marks s)) as [|[xb yb] [|[xt yt] rest]] eqn:Hc;
      try (left; split; reflexivity).
    destruct (is_nan (yminEl_value (inputs s))) eqn:E1;
      [left; split; reflexivity|].
    destruct (is_nan (ymaxEl_value (inputs s))) eqn:E2;
      [left; split; reflexivity|].
    destruct (abs (yb - yt) <? 1e-6)%float eqn:E3;
      [left; split; reflexivity|].
    do 5 right. exists xb, yb, xt, yt, rest. cbn [orb fst marks set_marks].
    repeat split; try assumption; reflexivity.
  - left. split; reflexivity.
  - left. split; reflexivity.
  - left. split; reflexivity.
  - left. split; reflexivity.
  - left. split; reflexivity.
  - left. unfold canvas_mousedown. split_tests s; split; reflexivity.
  - left. unfold canvas_mousemove. split_tests s; split; reflexivity.
  - left. unfold canvas_mouseup. split_tests s; split; reflexivity.
  - left. unfold canvas_mouseleave. split_tests s; split; reflexivity.
  - left. destruct (applyCropBtn_frame s) as [l E]. rewrite E.
    split; reflexivity.
  - unfold image_loaded. destruct (nth_error (loading s) n).
    + right. left. split; reflexivity.
    + left. split; reflexivity.
Qed.

(** Dragging is only ever switched on together with its offset. *)
Lemma after_drag (ev : Event) (s : State) :
  (isDragging (crop s) = true -> dragOffset (crop s) <> None) ->
  isDragging (crop (after ev s)) = true ->
  dragOffset (crop (after ev s)) <> None.
Proof.
  intros H. destruct ev; unfold after, step; cbn [fst]; try exact H;
    try discriminate.
  - unfold undoBtn_onclick. split_tests s; exact H.
  - destruct (canvas_click_cases e s)
      as [[E _]|[(_ & _ & E)|(_ & _ & _ & _ & s1 & Es1 & [[_ E]|[_ E]])]];
      rewrite E; cbn [fst]; try rewrite (computeResults_frame s1);
      try subst s1; exact H.
  - unfold setCalibBtn_onclick.
    destruct (calib (marks s)) as [|[xb yb] [|[xt yt] rest]]; try exact H.
    split_tests s; exact H.
  - unfold canvas_mousedown.
    destruct (negb (isCropping (crop s))); [exact H|].
    match goal with |- context [if ?c then _ else _] => destruct c end;
      cbn; [discriminate|exact H].
  - unfold canvas_mousemove.
    destruct (negb (isCropping (crop s))); [exact H|].
    destruct (isDragging (crop s)) eqn:D.
    + destruct (dragOffset (crop s)) eqn:O; [|destruct (H eq_refl eq_refl)].
      cbn. intros _. discriminate.
    + destruct (cropStart (crop s)); cbn; [exact H|rewrite D; discriminate].
  - unfold canvas_mouseup. destruct (negb (isCropping (crop s)));
      [exact H|discriminate].
  - unfold canvas_mouseleave. destruct (negb (isCropping (crop s)));
      [exact H|discriminate].
  - destruct (applyCropBtn_frame s) as [l E]. rewrite E. exact H.
  - unfold image_loaded. destruct (nth_error (loading s) n); exact H.
Qed.

Lemma sum_finalVal_rows_from a md st pts :
  sum_finalVal (rows_from a md st 0 pts)
  = fold_left (fun t r => (t + finalVal r)%float)
      (rows_from a md st 0 pts) 0%float.
Proof. reflexivity. Qed.

(** Every event keeps the page sound. *)
Lemma after_sound (ev : Event) (s : State) : sound s -> sound (after ev s).
Proof.
  unfold sound, stores_bounded, map_from_calibration, report_shape.
  intros ((Hc & Hm) & Hmap & Hpts & Hrep & H12 & Hdrag).
  split; [|split; [|split; [|split; [|split]]]];
    [| | | | |exact (after_drag ev s Hdrag)];
    destruct (after_marks_report ev s)
      as [[E R]|[[E R]|[(p & Hl & E & R)|[(p & Ha & Hl & E & Hr)
         |[(Hne & E & R)|(xb & yb & xt & yt & rest & Ecal & Nmin & Hfar & E & R)]]]]];
    try rewrite R; rewrite E in *;
    cbn [calib monthPts affine mode startIdx clear_marks] in *;
    try rewrite length_app; cbn [List.length].
  (* the bounds of the stores *)
  - auto.
  - split; lia.
  - split; lia.
  - split; lia.
  - split; [lia|]. rewrite removelast_firstn_len, length_firstn. lia.
  - auto.
  (* the map and the calibration points *)
  - exact Hmap.
  - discriminate.
  - intros a Ea. destruct (Hmap a Ea) as (? & ? & ? & ? & ? & Ec & _).
    rewrite Ec in Hl. cbn in Hl. lia.
  - exact Hmap.
  - exact Hmap.
  - intros a Ea. injection Ea as <-. cbn [c_yb c_pixelRange c_vmin].
    rewrite Ecal in Hc. cbn [List.length] in Hc.
    destruct rest as [|q rest]; [|cbn in Hc; lia].
    exists xb, xt, yt, (modeEl_value (inputs s)),
      (indexOf monthNames (startEl_value (inputs s))).
    rewrite Ecal. repeat split; try assumption; try reflexivity;
      pose proof (indexOf_range monthNames (startEl_value (inputs s))) as I;
      change (Z.of_nat (List.length monthNames)) with 12%Z in I; lia.
  (* month points only under a map *)
  - exact Hpts.
  - congruence.
  - exact Hpts.
  - intros _. exact Ha.
  - intros _. apply Hpts. exact Hne.
  - discriminate.
  (* the report *)
  - exact Hrep.
  - now left.
  - exact Hrep.
  - destruct Hr as [[_ R]|[H11 R]]; rewrite R; [exact Hrep|].
    destruct (affine (marks s)) as [a|] eqn:Ea; [|congruence].
    right. eexists.
    rewrite (computeResults_report_any _ a)
      by (cbn [marks set_marks affine monthPts]; try reflexivity;
          rewrite length_app; cbn; lia).
    cbn [resultsTable annualLabel]. split; [reflexivity|].
    split; [|split; [reflexivity|discriminate]].
    rewrite rows_from_length. cbn [marks set_marks monthPts].
    rewrite length_app. cbn. lia.
  - exact Hrep.
  - destruct Hrep as [Hrep|(rows & ? & ? & ? & ?)]; [now left|].
    right. exists rows. repeat split; try assumption. discriminate.
  (* twelve points have a report *)
  - exact H12.
  - discriminate.
  - exact H12.
  - destruct Hr as [[N R]|[H11 R]]; rewrite R.
    + intros L. lia.
    + intros _.
      destruct (affine (marks s)) as [a|] eqn:Ea; [|congruence].
      rewrite (computeResults_report_any _ a)
        by (cbn [marks set_marks affine monthPts]; try reflexivity;
            rewrite length_app; cbn; lia).
      discriminate.
  - intros L. rewrite removelast_firstn_len, length_firstn in L. lia.
  - exact H12.
Qed.

Lemma reachable_sound (s : State) : reachable s -> sound s.
Proof.
  induction 1 as [c i r|ev s _ IH]; [|now apply after_sound].
  unfold sound, stores_bounded, map_from_calibration, report_shape. cbn.
  repeat split; try lia; try discriminate; try congruence. now left.
Qed.

Lemma sample_reachable (evs : list Event) (vmin vmax : float) :
  reachable (run evs (sample_page vmin vmax)).
Proof. apply reachable_run, reach_start. Qed.

(** X5.  Month points exist only while a map is present over two calibration
    points: they cannot be placed before "Set calibration" succeeds, and
    whatever removes the map removes them too. *)
Theorem month_points_need_calibration (s : State) :
  reachable s ->
  monthPts (marks s) <> [] ->
  affine (marks s) <> None /\ List.length (calib (marks s)) = 2%nat.
Proof.
  intros Hr Hne.
  destruct (reachable_sound s Hr) as (_ & Hmap & Hpts & _).
  specialize (Hpts Hne). split; [exact Hpts|].
  destruct (affine (marks s)) as [a|] eqn:Ea; [|congruence].
  destruct (Hmap a Ea) as (xb & xt & yt & md & k & Ec & _).
  rewrite Ec. reflexivity.
Qed.

Lemma month_points_need_calibration_witness :
  reachable sample_eleven
  /\ monthPts (marks sample_eleven) <> []
  /\ affine (marks sample_eleven) <> None
  /\ List.length (calib (marks sample_eleven)) = 2%nat.
Proof.
  assert (Hr : reachable sample_eleven).
  { unfold sample_eleven, sample_calibrated.
    apply reachable_run, sample_reachable. }
  assert (Hne : monthPts (marks sample_eleven) <> [])
    by (vm_compute; discriminate).
  split; [exact Hr|]. split; [exact Hne|].
  exact (month_points_need_calibration sample_eleven Hr Hne).
Defined.

(** X6.  The map in force is always the one built from the two calibration
    points on display: its [yb] is the first point's ordinate, its pixel
    range is the difference of the two ordinates and is never below 1e-6 in
    magnitude, its [vmin] is a number, and it comes with a stored mode and a
    stored start index between -1 and 11. *)
Theorem map_matches_calibration (s : State) (a : Affine) :
  reachable s ->
  affine (marks s) = Some a ->
  exists xb xt yt md k,
    calib (marks s) = [(xb, c_yb a); (xt, yt)]
    /\ c_pixelRange a = (c_yb a - yt)%float
    /\ (abs (c_pixelRange a) <? 1e-6)%float = false
    /\ is_nan (c_vmin a) = false
    /\ mode (marks s) = Some md
    /\ startIdx (marks s) = Some k /\ (-1 <= k <= 11)%Z.
Proof.
  intros Hr Ea. destruct (reachable_sound s Hr) as (_ & Hmap & _).
  exact (Hmap a Ea).
Qed.

Lemma map_matches_calibration_witness :
  let a := {| c_vmin := 0; c_yb := 500; c_pixelRange := 400;
              c_dataRange := 1000 |}%float in
  reachable sample_twelve
  /\ affine (marks sample_twelve) = Some a
  /\ exists xb xt yt md k,
       calib (marks sample_twelve) = [(xb, c_yb a); (xt, yt)]
       /\ c_pixelRange a = (c_yb a - yt)%float
       /\ (abs (c_pixelRange a) <? 1e-6)%float = false
       /\ is_nan (c_vmin a) = false
       /\ mode (marks sample_twelve) = Some md
       /\ startIdx (marks sample_twelve) = Some k /\ (-1 <= k <= 11)%Z.
Proof.
  intros a.
  assert (Hr : reachable sample_twelve).
  { unfold sample_twelve, sample_calibrated.
    apply reachable_run, sample_reachable. }
  assert (Ea : affine (marks sample_twelve) = Some a)
    by (vm_compute; reflexivity).
  split; [exact Hr|]. split; [exact Ea|].
  exact (map_matches_calibration sample_twelve a Hr Ea).
Defined.

(** X7.  Whatever has happened, the report is either empty (no table, no total)
    or a table of exactly twelve rows whose annual total is the sum of the
    rows' final values, and a table is only ever shown while a map is
    present. *)
Theorem report_is_consistent (s : State) :
  reachable s ->
  report s = no_report
  \/ exists rows,
       resultsTable (report s) = Some rows
       /\ List.length rows = 12%nat
       /\ annualLabel (report s) = Some (sum_finalVal rows)
       /\ affine (marks s) <> None.
Proof.
  intros Hr. destruct (reachable_sound s Hr) as (_ & _ & _ & Hrep & _).
  exact Hrep.
Qed.

Lemma report_is_consistent_witness :
  let s := after Undo sample_twelve in
  reachable s
  /\ List.length (monthPts (marks s)) = 11%nat
  /\ exists rows,
       resultsTable (report s) = Some rows
       /\ List.length rows = 12%nat
       /\ annualLabel (report s) = Some (sum_finalVal rows).
Proof.
  intros s.
  assert (Hr : reachable s).
  { apply reach_step. unfold sample_twelve, sample_calibrated.
    apply reachable_run, sample_reachable. }
  split; [exact Hr|]. split; [vm_compute; reflexivity|].
  destruct (report_is_consistent s Hr) as [E|(rows & H1 & H2 & H3 & _)].
  - exfalso. assert (N : report s <> no_report) by (vm_compute; discriminate).
    exact (N E).
  - exists rows. split; [exact H1|]. split; [exact H2|exact H3].
Defined.

(** X8.  Twelve month points are never on display without their results: the
    twelfth can only be added by the click that runs the engine, and the
    table is only cleared together with the points. *)
Theorem twelve_points_have_report (s : State) :
  reachable s ->
  List.length (monthPts (marks s)) = 12%nat ->
  exists rows,
    resultsTable (report s) = Some rows
    /\ List.length rows = 12%nat
    /\ annualLabel (report s) = Some (sum_finalVal rows).
Proof.
  intros Hr Hl.
  destruct (reachable_sound s Hr) as (_ & _ & _ & Hrep & H12 & _).
  specialize (H12 Hl).
  destruct Hrep as [E|(rows & H1 & H2 & H3 & _)].
  - rewrite E in H12. cbn in H12. congruence.
  - exists rows. split; [exact H1|]. split; [exact H2|exact H3].
Qed.

Lemma twelve_points_have_report_witness :
  let s := after (SelectMode "Total") sample_twelve in
  reachable s
  /\ List.length (monthPts (marks s)) = 12%nat
  /\ exists rows,
       resultsTable (report s) = Some rows
       /\ List.length rows = 12%nat
       /\ annualLabel (report s) = Some (sum_finalVal rows).
Proof.
  intros s.
  assert (Hr : reachable s).
  { apply reach_step. unfold sample_twelve, sample_calibrated.
    apply reachable_run, sample_reachable. }
  assert (Hl : List.length (monthPts (marks s)) = 12%nat)
    by (vm_compute; reflexivity).
  split; [exact Hr|]. split; [exact Hl|].
  exact (twelve_points_have_report s Hr Hl).
Defined.

(** X9.  While a drag is in progress its offset is there: the move handler never
    reads [dragOffset.cssDx] off [null]. *)
Theorem dragging_has_offset (s : State) :
  reachable s ->
  isDragging (crop s) = true ->
  exists d, dragOffset (crop s) = Some d.
Proof.
  intros Hr Hd.
  destruct (reachable_sound s Hr) as (_ & _ & _ & _ & _ & Hdrag).
  specialize (Hdrag Hd).
  destruct (dragOffset (crop s)) as [d|]; [now exists d|congruence].
Qed.

Lemma dragging_has_offset_witness :
  reachable sample_dragging
  /\ isDragging (crop sample_dragging) = true
  /\ exists d, dragOffset (crop sample_dragging) = Some d.
Proof.
  assert (Hr : reachable sample_dragging).
  { apply reach_step. apply sample_reachable. }
  assert (Hd : isDragging (crop sample_dragging) = true)
    by (vm_compute; reflexivity).
  split; [exact Hr|]. split; [exact Hd|].
  exact (dragging_has_offset sample_dragging Hr Hd).
Defined.

(** * Order on doubles, for the clamping of a dragged rectangle *)

Module FloatOrder.

Lemma not_nan_SF (f : float) : is_nan f = false -> Prim2SF f <> S754_nan.
Proof.
  rewrite FloatFacts.is_nan_SF. destruct (Prim2SF f); congruence.
Qed.

(** Two numbers always compare. *)
Lemma SFcompare_total x y :
  x <> S754_nan -> y <> S754_nan -> exists c, SFcompare x y = Some c.
Proof.
  destruct x as [s|s| |s m e], y as [t|t| |t n f]; intros Hx Hy;
    try congruence; cbn; eauto.
Qed.

Lemma leb_refl (a : float) : is_nan a = false -> (a <=? a)%float = true.
Proof.
  intros H. rewrite leb_spec. unfold SFleb.
  rewrite FloatFacts.SFcompare_refl by (apply not_nan_SF, H). reflexivity.
Qed.

Lemma ltb_leb (a b : float) : (a <? b)%float = true -> (a <=? b)%float = true.
Proof.
  rewrite ltb_spec, leb_spec. unfold SFltb, SFleb.
  destruct (SFcompare (Prim2SF a) (Prim2SF b)) as [[ | | ]|]; congruence.
Qed.

(** Neither below nor above: equal in the order, both ways. *)
Lemma not_ltb_leb (a b : float) :
  is_nan a = false -> is_nan b = false ->
  (b <? a)%float = false -> (a <=? b)%float = true.
Proof.
  intros Ha Hb. rewrite ltb_spec, leb_spec. unfold SFltb, SFleb.
  rewrite (FloatFacts.SFcompare_swap (Prim2SF a) (Prim2SF b)).
  destruct (SFcompare_total _ _ (not_nan_SF a Ha) (not_nan_SF b Hb))
    as [c E].
  rewrite E. destruct c; cbn; congruence.
Qed.

Lemma fmin_cases (a b : float) :
  is_nan a = false -> is_nan b = false ->
  (fmin a b = a \/ fmin a b = b)
  /\ (fmin a b <=? a)%float = true /\ (fmin a b <=? b)%float = true.
Proof.
  intros Ha Hb. unfold fmin. rewrite Ha, Hb. cbn [orb].
  destruct (a <? b)%float eqn:L1.
  - split; [now left|]. split; [now apply leb_refl|now apply ltb_leb].
  - destruct (b <? a)%float eqn:L2.
    + split; [now right|]. split; [now apply ltb_leb|now apply leb_refl].
    + destruct (get_sign a).
      * split; [now left|].
        split; [now apply leb_refl|now apply not_ltb_leb].
      * split; [now right|].
        split; [now apply not_ltb_leb|now apply leb_refl].
Qed.

Lemma fmax_zero_cases (m : float) :
  is_nan m = false ->
  (fmax 0 m = m \/ fmax 0 m = 0%float)
  /\ (0 <=? fmax 0 m)%float = true.
Proof.
  intros Hm. unfold fmax.
  change (is_nan 0) with false. rewrite Hm. cbn [orb].
  destruct (0 <? m)%float eqn:L1.
  - split; [now left|]. now apply ltb_leb.
  - destruct (m <? 0)%float eqn:L2.
    + split; [now right|]. reflexivity.
    + change (get_sign 0) with false. cbn iota.
      split; [now right|]. reflexivity.
Qed.

(** [Math.max(0, Math.min(v, room))] is never negative, and is at most
    [room] when there is room at all. *)
Lemma clamped_length (v room : float) :
  is_nan v = false -> is_nan room = false ->
  (0 <=? fmax 0 (fmin v room))%float = true
  /\ ((0 <=? room)%float = true ->
      (fmax 0 (fmin v room) <=? room)%float = true).
Proof.
  intros Hv Hr.
  destruct (fmin_cases v room Hv Hr) as [Hsel [_ Hle]].
  assert (Hm : is_nan (fmin v room) = false)
    by (destruct Hsel as [->| ->]; assumption).
  destruct (fmax_zero_cases _ Hm) as [[E|E] H0]; split; try exact H0;
    intros Hroom; rewrite E; assumption.
Qed.

End FloatOrder.

(** * The handlers, one against another *)

(** X10.  While a box is dragged it keeps its size, and its new left and top
    edges, clamped by [Math.max(0, Math.min(.., room))], are never negative
    and never beyond the room the canvas leaves, when it leaves any. *)
Theorem drag_stays_inside (e : Pointer) (s : State) (d : DragOffset) :
  isCropping (crop s) = true ->
  isDragging (crop s) = true ->
  dragOffset (crop s) = Some d ->
  let p := getCanvasPointFromClient (canvas s) e in
  let roomX := (rect_width (rect e) - style_width (cropRect s))%float in
  let roomY := (rect_height (rect e) - style_height (cropRect s))%float in
  is_nan (cssX p - cssDx d) = false -> is_nan roomX = false ->
  is_nan (cssY p - cssDy d) = false -> is_nan roomY = false ->
  let s' := canvas_mousemove e s in
  (0 <=? style_left (cropRect s'))%float = true
  /\ ((0 <=? roomX)%float = true ->
      (style_left (cropRect s') <=? roomX)%float = true)
  /\ (0 <=? style_top (cropRect s'))%float = true
  /\ ((0 <=? roomY)%float = true ->
      (style_top (cropRect s') <=? roomY)%float = true)
  /\ style_width (cropRect s') = style_width (cropRect s)
  /\ style_height (cropRect s') = style_height (cropRect s)
  /\ Box.w (cropBox (crop s')) = Box.w (cropBox (crop s))
  /\ Box.h (cropBox (crop s')) = Box.h (cropBox (crop s)).
Proof.
  intros Hc Hd Ho p roomX roomY Nx Nrx Ny Nry s'. subst s'.
  unfold canvas_mousemove. rewrite Hc, Hd, Ho. cbn [negb].
  cbn [cropRect set_cropRect set_crop crop style_left style_top style_width
       style_height cropBox Box.w Box.h].
  fold p. fold roomX. fold roomY.
  destruct (FloatOrder.clamped_length _ _ Nx Nrx) as [Hx0 Hx1].
  destruct (FloatOrder.clamped_length _ _ Ny Nry) as [Hy0 Hy1].
  repeat split; assumption.
Qed.

Lemma drag_stays_inside_witness :
  let s := sample_dragging in
  let e := at_xy 790 (-40) in
  isCropping (crop s) = true
  /\ isDragging (crop s) = true
  /\ dragOffset (crop s) = Some {| cssDx := 100; cssDy := 50 |}
  /\ style_left (cropRect (canvas_mousemove e s)) = 400%float
  /\ style_top (cropRect (canvas_mousemove e s)) = 0%float
  /\ (0 <=? style_left (cropRect (canvas_mousemove e s)))%float = true
  /\ (style_left (cropRect (canvas_mousemove e s)) <=? 800 - 400)%float = true.
Proof.
  intros s e.
  assert (Hc : isCropping (crop s) = true) by (vm_compute; reflexivity).
  assert (Hd : isDragging (crop s) = true) by (vm_compute; reflexivity).
  assert (Ho : dragOffset (crop s) = Some {| cssDx := 100; cssDy := 50 |})
    by (vm_compute; reflexivity).
  split; [exact Hc|]. split; [exact Hd|]. split; [exact Ho|].
  split; [vm_compute; reflexivity|]. split; [vm_compute; reflexivity|].
  destruct (drag_stays_inside e s _ Hc Hd Ho) as (H0 & H1 & _);
    try (vm_compute; reflexivity).
  split; [exact H0|]. apply H1. vm_compute. reflexivity.
Defined.

(** X11.  Undo takes back the month point a click has just added: the stores and
    the map are as before the click, and so is the whole page unless the
    click was the one that ran the engine, in which case the table computed
    for the twelve points stays on display. *)
Theorem undo_takes_back_month_point (e : Pointer) (s : State) :
  reaches_stores s ->
  (2 <= List.length (calib (marks s)))%nat ->
  affine (marks s) <> None ->
  (List.length (monthPts (marks s)) < 12)%nat ->
  let s' := undoBtn_onclick (fst (canvas_click e s)) in
  marks s' = marks s
  /\ (List.length (monthPts (marks s)) <> 11%nat -> s' = s)
  /\ (List.length (monthPts (marks s)) = 11%nat ->
      report s' = report (fst (canvas_click e s))
      /\ resultsTable (report s') <> None).
Proof.
  intros Hr Hc Ha Hm s'. subst s'.
  assert (U : forall s1,
             marks s1 = {| calib := calib (marks s);
                           monthPts := monthPts (marks s) ++ [clicked s e];
                           affine := affine (marks s);
                           mode := mode (marks s);
                           startIdx := startIdx (marks s) |} ->
             undoBtn_onclick s1 = set_marks (marks s) s1).
  { intros s1 E. unfold undoBtn_onclick. rewrite E.
    cbn [monthPts calib affine mode startIdx].
    rewrite length_app, removelast_last. cbn [List.length].
    replace (0 <? List.length (monthPts (marks s)) + 1)%nat with true
      by (symmetry; apply Nat.ltb_lt; lia).
    destruct (marks s); reflexivity. }
  destruct (canvas_click_cases e s)
    as [[E R]|[(_ & Hc' & _)|(_ & _ & _ & _ & s1 & Es1 & [[H11 E]|[H11 E]])]].
  - destruct (R Hr) as [_ [Hn|Hn]]; [congruence|lia].
  - lia.
  - rewrite E. cbn [fst].
    rewrite (U (computeResults s1))
      by (rewrite computeResults_marks; subst s1; reflexivity).
    cbn [marks set_marks report]. split; [reflexivity|].
    split; [intros N; congruence|]. intros _. split; [reflexivity|].
    destruct (affine (marks s)) as [a|] eqn:Ea; [|congruence].
    rewrite (computeResults_report_any s1 a).
    + discriminate.
    + subst s1. cbn [marks set_marks affine]. first [exact Ea|reflexivity].
    + subst s1. cbn [marks set_marks monthPts]. rewrite length_app. cbn. lia.
  - rewrite E. cbn [fst].
    rewrite (U s1) by (subst s1; reflexivity).
    split; [reflexivity|]. split; [|intros N; congruence].
    intros _. subst s1. destruct s; reflexivity.
Qed.

Lemma undo_takes_back_month_point_witness :
  let s := sample_eleven in
  let e := at_xy 100 100 in
  reaches_stores s
  /\ (2 <= List.length (calib (marks s)))%nat
  /\ affine (marks s) <> None
  /\ (List.length (monthPts (marks s)) < 12)%nat
  /\ List.length (monthPts (marks s)) = 11%nat
  /\ marks (undoBtn_onclick (fst (canvas_click e s))) = marks s
  /\ resultsTable (report (undoBtn_onclick (fst (canvas_click e s)))) <> None.
Proof.
  intros s e.
  assert (Hr : reaches_stores s) by (vm_compute; reflexivity).
  assert (Hc : (2 <= List.length (calib (marks s)))%nat)
    by (vm_compute; lia).
  assert (Ha : affine (marks s) <> None) by (vm_compute; discriminate).
  assert (Hm : (List.length (monthPts (marks s)) < 12)%nat)
    by (vm_compute; lia).
  assert (H11 : List.length (monthPts (marks s)) = 11%nat)
    by (vm_compute; reflexivity).
  destruct (undo_takes_back_month_point e s Hr Hc Ha Hm) as (Hk & _ & Ht).
  split; [exact Hr|]. split; [exact Hc|]. split; [exact Ha|].
  split; [exact Hm|]. split; [exact H11|]. split; [exact Hk|].
  exact (proj2 (Ht H11)).
Defined.

(** After Reset the next click on the canvas, wherever crop mode and the
    stores were before, places the first calibration point. *)
Theorem reset_then_click (e : Pointer) (s : State) :
  let r := resetBtn_onclick s in
  reaches_stores r
  /\ canvas_click e r
     = (set_marks {| calib := [clicked r e];
                     monthPts := [];
                     affine := None;
                     mode := mode (marks s);
                     startIdx := startIdx (marks s) |} r,
        [drawPoint (fst (clicked r e)) (snd (clicked r e)) "blue"]).
Proof.
  split; reflexivity.
Qed.

(** "Set calibration" answers with the two-points message exactly when
    fewer than two calibration points have been placed, whatever the bounds,
    and then changes nothing. *)
Theorem setCalib_needs_two_points (s : State) :
  (snd (setCalibBtn_onclick s)
   = [alert "Select two calibration points (bottom then top) first."]
   <-> (List.length (calib (marks s)) < 2)%nat)
  /\ ((List.length (calib (marks s)) < 2)%nat ->
      fst (setCalibBtn_onclick s) = s).
Proof.
  unfold setCalibBtn_onclick.
  destruct (calib (marks s)) as [|[xb yb] [|[xt yt] rest]];
    cbn [List.length fst snd].
  - split; [split; [lia|reflexivity]|reflexivity].
  - split; [split; [lia|reflexivity]|reflexivity].
  - split; [|lia].
    destruct (is_nan (yminEl_value (inputs s))
              || is_nan (ymaxEl_value (inputs s)));
      [|destruct (abs (yb - yt) <? 1e-6)%float]; cbn [snd];
      (split; [discriminate|lia]).
Qed.

(** X12.  A crop whose image is still loading wins over an upload that completes
    in between: when the load fires, the uploaded image is replaced by the
    crop of the earlier one, with the raster resized to the crop. *)
Theorem stale_crop_load_overwrites_upload (s : State) (n : nat) (p : Pending)
    (b : Image) :
  nth_error (loading s) n = Some p ->
  let s' := after (ImageLoaded n) (after (Upload b) s) in
  origImg (pic s') = Some (newImage p)
  /\ img (pic s') = Some (newImage p)
  /\ canvas s' = {| canvas_width := to_ulong (p_sw p);
                    canvas_height := to_ulong (p_sh p) |}
  /\ marks s' = clear_marks (marks s)
  /\ report s' = no_report.
Proof.
  intros Hn s'. subst s'. unfold after, step. cbn [fst].
  unfold image_loaded. cbn [loading reader_onload]. rewrite Hn.
  repeat split.
Qed.

Lemma stale_crop_load_overwrites_upload_witness :
  let p := {| newImage := Region (Decoded "chart" 1600 1200)
                            (JInt 200) (JInt 100) (JInt 800) (JInt 600);
              p_sw := JInt 800; p_sh := JInt 600 |} in
  let b := Decoded "other" 640 480 in
  nth_error (loading sample_applying) 0 = Some p
  /\ origImg (pic (after (ImageLoaded 0) (after (Upload b) sample_applying)))
     = Some (newImage p).
Proof.
  intros p b.
  assert (Hn : nth_error (loading sample_applying) 0 = Some p)
    by (vm_compute; reflexivity).
  split; [exact Hn|].
  exact (proj1 (stale_crop_load_overwrites_upload sample_applying 0 p b Hn)).
Defined.

(** X13.  Reset really starts over: from any state, Reset, two clicks and "Set
    calibration" (with bounds that parse and ordinates at least 1e-6 apart)
    leave exactly those two clicks as calibration points and the map built
    from them, with no month point and no report. *)
Theorem recalibrate_after_reset (e1 e2 : Pointer) (s : State) :
  let r := resetBtn_onclick s in
  let p1 := clicked r e1 in
  let p2 := clicked r e2 in
  is_nan (vmin_of s) = false -> is_nan (vmax_of s) = false ->
  (abs (snd p1 - snd p2) <? 1e-6)%float = false ->
  let s' := run [Click e1; Click e2; SetCalib] r in
  calib (marks s') = [p1; p2]
  /\ affine (marks s')
     = Some {| c_vmin := vmin_of s; c_yb := snd p1;
               c_pixelRange := (snd p1 - snd p2)%float;
               c_dataRange := (vmax_of s - vmin_of s)%float |}
  /\ monthPts (marks s') = []
  /\ report s' = no_report.
Proof.
  intros r p1 p2 Nmin Nmax Hfar s'.
  set (r2 := set_marks {| calib := [p1; p2];
                          monthPts := [];
                          affine := None;
                          mode := mode (marks s);
                          startIdx := startIdx (marks s) |} r).
  assert (A : after (Click e2) (after (Click e1) r) = r2) by reflexivity.
  assert (E : s' = fst (setCalibBtn_onclick r2)).
  { subst s'. cbn [run]. rewrite A. reflexivity. }
  rewrite E.
  rewrite (setCalib_success r2 (fst p1) (snd p1) (fst p2) (snd p2) []).
  - repeat split.
  - subst r2. cbn [marks set_marks calib]. destruct p1, p2. reflexivity.
  - exact Nmin.
  - exact Nmax.
  - exact Hfar.
Qed.

Lemma recalibrate_after_reset_witness :
  let s := after CropToggle sample_twelve in
  let s' := run [Click (at_xy 10 400); Click (at_xy 20 200); SetCalib]
              (resetBtn_onclick s) in
  is_nan (vmin_of s) = false /\ is_nan (vmax_of s) = false
  /\ (abs (400 - 200) <? 1e-6)%float = false
  /\ calib (marks s') = [(10, 400); (20, 200)]%float
  /\ affine (marks s')
     = Some {| c_vmin := 0; c_yb := 400; c_pixelRange := 200;
               c_dataRange := 1000 |}%float.
Proof.
  intros s s'.
  assert (Nmin : is_nan (vmin_of s) = false) by (vm_compute; reflexivity).
  assert (Nmax : is_nan (vmax_of s) = false) by (vm_compute; reflexivity).
  assert (Hfar : (abs (snd (clicked (resetBtn_onclick s) (at_xy 10 400))
                       - snd (clicked (resetBtn_onclick s) (at_xy 20 200)))
                  <? 1e-6)%float = false) by (vm_compute; reflexivity).
  split; [exact Nmin|]. split; [exact Nmax|].
  split; [vm_compute; reflexivity|].
  destruct (recalibrate_after_reset (at_xy 10 400) (at_xy 20 200) s
              Nmin Nmax Hfar) as (Hc & Ha & _).
  split.
  - etransitivity; [exact Hc|]. vm_compute. reflexivity.
  - etransitivity; [exact Ha|]. vm_compute. reflexivity.
Defined.

(** Pointer gestures keep crop mode on and its rectangle shown. *)
Lemma gestures_keep_crop_mode (evs : list Event) :
  forallb is_crop_gesture evs = true ->
  forall s,
    isCropping (crop s) = true ->
    style_display (cropRect s) = "block"%string ->
    isCropping (crop (run evs s)) = true
    /\ style_display (cropRect (run evs s)) = "block"%string.
Proof.
  induction evs as [|ev evs IH]; intros Hg s Hc Hd; [now split|].
  cbn [forallb] in Hg. apply andb_prop in Hg. destruct Hg as [Hev Hg].
  cbn [run]. apply (IH Hg).
  - destruct ev; try discriminate; unfold after, step; cbn [fst].
    + unfold canvas_mousedown. rewrite Hc. cbn [negb].
      match goal with |- context [if ?c then _ else _] => destruct c end;
        cbn; first [exact Hc|reflexivity].
    + unfold canvas_mousemove. rewrite Hc. cbn [negb].
      destruct (isDragging (crop s)); [destruct (dragOffset (crop s))|
        destruct (cropStart (crop s))]; cbn; first [exact Hc|reflexivity].
    + unfold canvas_mouseup. rewrite Hc. cbn. first [exact Hc|reflexivity].
    + unfold canvas_mouseleave. rewrite Hc. cbn. first [exact Hc|reflexivity].
  - destruct ev; try discriminate; unfold after, step; cbn [fst].
    + unfold canvas_mousedown. rewrite Hc. cbn [negb].
      match goal with |- context [if ?c then _ else _] => destruct c end;
        cbn; [first [exact Hd|reflexivity]|reflexivity].
    + unfold canvas_mousemove. rewrite Hc. cbn [negb].
      destruct (isDragging (crop s)); [destruct (dragOffset (crop s))|
        destruct (cropStart (crop s))]; cbn; first [exact Hd|reflexivity].
    + unfold canvas_mouseup. rewrite Hc. cbn. first [exact Hd|reflexivity].
    + unfold canvas_mouseleave. rewrite Hc. cbn. first [exact Hd|reflexivity].
Qed.

(** X14.  From the moment crop mode is switched on, and through any presses,
    moves and releases of the pointer, a click on the canvas places no point
    and draws nothing. *)
Theorem crop_mode_blocks_clicks (evs : list Event) (e : Pointer) (s : State) :
  isCropping (crop s) = false ->
  forallb is_crop_gesture evs = true ->
  let s' := run evs (cropToggle_onclick s) in
  canvas_click e s' = (s', [])
  /\ marks s' = marks s.
Proof.
  intros Hc Hg s'. subst s'.
  destruct (gestures_keep_crop_mode evs Hg (cropToggle_onclick s))
    as [Hc' Hd'].
  - unfold cropToggle_onclick. rewrite Hc. reflexivity.
  - unfold cropToggle_onclick. rewrite Hc. reflexivity.
  - split.
    + unfold canvas_click. rewrite Hc', Hd'. cbn.
      rewrite orb_true_r. reflexivity.
    + clear Hc' Hd'.
      assert (G : forall t, marks (run evs t) = marks t).
      { clear -Hg. induction evs as [|ev evs IH]; intros t; [reflexivity|].
        cbn [forallb] in Hg. apply andb_prop in Hg. destruct Hg as [Hev Hg].
        cbn [run]. rewrite (IH Hg).
        destruct (after_marks_report ev t)
          as [[E _]|[[E _]|[(p & _ & E & _)|[(p & _ & _ & E & _)
             |[(_ & E & _)|(? & ? & ? & ? & ? & _ & _ & _ & E & _)]]]]];
          try exact E; destruct ev; try discriminate;
          unfold after, step; cbn [fst].
        all: try (unfold canvas_mousedown; split_tests t; reflexivity).
        all: try (unfold canvas_mousemove; split_tests t; reflexivity).
        all: try (unfold canvas_mouseup; split_tests t; reflexivity).
        all: try (unfold canvas_mouseleave; split_tests t; reflexivity). }
      rewrite G. reflexivity.
Qed.

Lemma crop_mode_blocks_clicks_witness :
  let evs := [MouseDown (at_xy 100 50); MouseMove (at_xy 500 350);
              MouseUp (at_xy 500 350)] in
  let s' := run evs (cropToggle_onclick sample_calibrated) in
  isCropping (crop sample_calibrated) = false
  /\ forallb is_crop_gesture evs = true
  /\ canvas_click (at_xy 300 200) s' = (s', [])
  /\ marks s' = marks sample_calibrated.
Proof.
  intros evs s'.
  assert (Hc : isCropping (crop sample_calibrated) = false)
    by (vm_compute; reflexivity).
  assert (Hg : forallb is_crop_gesture evs = true) by reflexivity.
  split; [exact Hc|]. split; [exact Hg|].
  exact (crop_mode_blocks_clicks evs (at_xy 300 200) sample_calibrated Hc Hg).
Defined.

(** X15.  Running the engine again changes nothing: it reads only the stores, the
    map, the stored mode and the stored start index, and writes only the
    report. *)
Theorem computeResults_idempotent (s : State) :
  computeResults (computeResults s) = computeResults s
  /\ marks (computeResults s) = marks s
  /\ (affine (marks s) = None
      \/ (List.length (monthPts (marks s)) < 12)%nat ->
      computeResults s = s).
Proof.
  split; [|split; [apply computeResults_marks|]].
  - unfold computeResults at 2 3.
    destruct (affine (marks s)) as [a|] eqn:Ea.
    2:{ unfold computeResults. rewrite Ea. reflexivity. }
    destruct (List.length (monthPts (marks s)) <? 12)%nat eqn:El.
    { unfold computeResults. rewrite Ea, El. reflexivity. }
    destruct (for_loop 12 0 _ _) as [[t rows] fin] eqn:L.
    unfold computeResults. cbn [marks set_report report annualLabel].
    rewrite Ea, El, L. destruct fin; reflexivity.
  - unfold computeResults. intros [H|H]; [rewrite H; reflexivity|].
    destruct (affine (marks s)); [|reflexivity].
    apply Nat.ltb_lt in H. rewrite H. reflexivity.
Qed.

(** X16.  The first row of the table carries the start month that was selected
    when calibration was set, and every row carries a month name: with a
    stored start index [indexOf(monthNames, v)] for a month name [v], row 0
    is labelled [v]. *)
Theorem labels_follow_selection (s : State) (a : Affine) (v : string) :
  affine (marks s) = Some a ->
  List.length (monthPts (marks s)) = 12%nat ->
  startIdx (marks s) = Some (indexOf monthNames v) ->
  In v monthNames ->
  exists r0 rest,
    resultsTable (report (computeResults s)) = Some (r0 :: rest)
    /\ monthName r0 = Some v
    /\ forall r, In r rest -> monthName r <> None.
Proof.
  intros Ha Hl Hs Hin.
  rewrite (computeResults_report_any s a Ha Hl). rewrite Hs.
  destruct (indexOf_found monthNames v Hin) as [H0 Hn].
  pose proof (indexOf_range monthNames v) as Hr.
  change (Z.of_nat (List.length monthNames)) with 12%Z in Hr.
  set (k := indexOf monthNames v) in *.
  destruct (monthPts (marks s)) as [|p pts] eqn:Ep; [discriminate|].
  cbn [rows_from resultsTable]. eexists. eexists. split; [reflexivity|].
  split.
  - unfold row_at, month_index, at_index. cbn [monthName option_map Z.of_nat].
    rewrite Z.add_0_r, Z.rem_small by lia.
    unfold lookup. destruct (Z.ltb_spec k 0); [lia|exact Hn].
  - intros r Hr'. apply In_nth_error in Hr'. destruct Hr' as [i Hi].
    destruct (nth_error pts i) as [q|] eqn:Eq.
    2:{ apply nth_error_None in Eq.
        assert (nth_error (rows_from a (mode (marks s)) (Some k) 1 pts) i
                = None)
          by (apply nth_error_None; rewrite rows_from_length; exact Eq).
        congruence. }
    rewrite (rows_from_nth a _ _ pts 1 i q Eq) in Hi. injection Hi as <-.
    unfold row_at, month_index, at_index. cbn [monthName option_map].
    rewrite Z.rem_mod_nonneg by lia.
    rewrite (lookup_month monthNames ""%string _ eq_refl)
      by (apply Z.mod_pos_bound; lia).
    discriminate.
Qed.

Lemma labels_follow_selection_witness :
  let a := {| c_vmin := 0; c_yb := 500; c_pixelRange := 400;
              c_dataRange := 1000 |}%float in
  affine (marks sample_twelve) = Some a
  /\ List.length (monthPts (marks sample_twelve)) = 12%nat
  /\ startEl_value (inputs sample_twelve) = "Mar"%string
  /\ startIdx (marks sample_twelve) = Some (indexOf monthNames "Mar")
  /\ In "Mar"%string monthNames
  /\ exists r0 rest,
       resultsTable (report (computeResults sample_twelve)) = Some (r0 :: rest)
       /\ monthName r0 = Some "Mar"%string.
Proof.
  intros a.
  assert (Ha : affine (marks sample_twelve) = Some a)
    by (vm_compute; reflexivity).
  assert (Hl : List.length (monthPts (marks sample_twelve)) = 12%nat)
    by (vm_compute; reflexivity).
  assert (Hs : startIdx (marks sample_twelve)
               = Some (indexOf monthNames "Mar"))
    by (vm_compute; reflexivity).
  assert (Hin : In "Mar"%string monthNames) by (cbn; tauto).
  split; [exact Ha|]. split; [exact Hl|]. split; [vm_compute; reflexivity|].
  split; [exact Hs|]. split; [exact Hin|].
  destruct (labels_follow_selection sample_twelve a "Mar" Ha Hl Hs Hin)
    as (r0 & rest & H1 & H2 & _).
  exists r0, rest. split; [exact H1|exact H2].
Defined.

Lemma nan_add (x : float) : (nan + x)%float = nan.
Proof.
  apply Prim2SF_inj. rewrite add_spec.
  change (Prim2SF nan) with S754_nan. reflexivity.
Qed.

Lemma sum_from_nan (rows : list Row) :
  fold_left (fun t r => (t + finalVal r)%float) rows nan = nan.
Proof.
  induction rows as [|r rows IH]; [reflexivity|].
  cbn [fold_left]. rewrite nan_add. exact IH.
Qed.

(** X17.  A start value that is none of the twelve names the script knows is
    stored as index -1 and never checked: the first row then has no month
    name, and in mode "Daily average" its final value and the annual total
    are NaN. *)
Theorem unknown_start_month (s : State) (a : Affine) (v : string) :
  affine (marks s) = Some a ->
  List.length (monthPts (marks s)) = 12%nat ->
  startIdx (marks s) = Some (indexOf monthNames v) ->
  ~ In v monthNames ->
  exists r0 rest,
    resultsTable (report (computeResults s)) = Some (r0 :: rest)
    /\ monthName r0 = None
    /\ (mode (marks s) = Some "Daily average"%string ->
        finalVal r0 = nan
        /\ annualLabel (report (computeResults s)) = Some nan).
Proof.
  intros Ha Hl Hs Hin.
  rewrite (computeResults_report_any s a Ha Hl). rewrite Hs.
  rewrite (indexOf_missing monthNames v Hin).
  destruct (monthPts (marks s)) as [|p pts] eqn:Ep; [discriminate|].
  cbn [rows_from resultsTable annualLabel]. eexists. eexists.
  split; [reflexivity|]. split; [reflexivity|].
  intros Hm. rewrite Hm. split; [reflexivity|].
  unfold sum_finalVal. cbn [fold_left].
  replace (0 + finalVal (row_at a (Some "Daily average"%string) (Some (-1)%Z)
                           0 p))%float with nan by reflexivity.
  now rewrite sum_from_nan.
Qed.

Lemma unknown_start_month_witness :
  let s := run (two_clicks 500 100 ++ [SelectStart "March"; SetCalib]
                ++ month_clicks sample_heights) (sample_page 0 1000) in
  let a := {| c_vmin := 0; c_yb := 500; c_pixelRange := 400;
              c_dataRange := 1000 |}%float in
  affine (marks s) = Some a
  /\ List.length (monthPts (marks s)) = 12%nat
  /\ startIdx (marks s) = Some (indexOf monthNames "March")
  /\ ~ In "March"%string monthNames
  /\ mode (marks s) = Some "Daily average"%string
  /\ annualLabel (report (computeResults s)) = Some nan
  /\ annualLabel (report s) = Some nan.
Proof.
  intros s a.
  assert (Ha : affine (marks s) = Some a) by (vm_compute; reflexivity).
  assert (Hl : List.length (monthPts (marks s)) = 12%nat)
    by (vm_compute; reflexivity).
  assert (Hs : startIdx (marks s) = Some (indexOf monthNames "March"))
    by (vm_compute; reflexivity).
  assert (Hin : ~ In "March"%string monthNames).
  { cbn. intros H. repeat (destruct H as [H|H]; [discriminate H|]).
    exact H. }
  assert (Hm : mode (marks s) = Some "Daily average"%string)
    by (vm_compute; reflexivity).
  split; [exact Ha|]. split; [exact Hl|]. split; [exact Hs|].
  split; [exact Hin|]. split; [exact Hm|].
  destruct (unknown_start_month s a "March" Ha Hl Hs Hin)
    as (r0 & rest & _ & _ & Hd).
  split; [exact (proj2 (Hd Hm))|]. vm_compute. reflexivity.
Defined.
